(** * black/report.py: the reformatting counters and their renderings

    A shallow embedding of [src/black/report.py]: the enumeration [Changed],
    the console counter [Report] and the JUnit accumulator [JunitReport],
    with their methods [done], [failed], [path_ignored], [return_code],
    [__str__] and [summary].

    Python values are kept as the module has them: an [int] counter is a
    [Z] (Python integers are unbounded, and a dataclass field may be given
    any start value), a [str] a [string], a [Path] the [str] it formats
    to, the list [tests] a [list string].  Console output goes through
    [black.output.out] and [black.output.err]; each call is logged. *)

From Stdlib Require Import ZArith List String Ascii Bool Lia DecimalString.
From Stdlib Require Import Permutation.
Import ListNotations.

Open Scope string_scope.
Open Scope Z_scope.

(** ** Python primitives used by the module *)

(** [str(n)] and [f"{n}"] for an [int]: decimal digits, a leading minus
    sign for negative numbers. *)
Definition str_of_int (n : Z) : string :=
  NilZero.string_of_int (Z.to_int n).

(** Truth value of an [int] in [if n:]. *)
Definition truthy (n : Z) : bool := negb (n =? 0).

(** The characters the templates need besides printable text. *)
Definition dq : string := String (ascii_of_nat 34) EmptyString.
Definition nl : string := String (ascii_of_nat 10) EmptyString.
Definition tab : string := String (ascii_of_nat 9) EmptyString.

Definition lbrace : ascii := ascii_of_nat 123.
Definition rbrace : ascii := ascii_of_nat 125.

(** Keyword arguments of a [str.format] call, in call order. *)
Definition kwargs := list (string * string).

Fixpoint kwarg (name : string) (kw : kwargs) : option string :=
  match kw with
  | [] => None
  | (k, v) :: kw' => if String.eqb k name then Some v else kwarg name kw'
  end.

(** [template.format(k1=v1, ...)].  Outside a replacement field, a doubled
    brace stands for one brace, a left brace opens a field and a single
    right brace is an error; inside a field the characters up to the
    next right brace are the keyword, whose value is spliced in without
    being scanned again.  Keywords that no field names are ignored.
    [None] stands for the exception Python raises (an unknown keyword, an
    unclosed field, a single right brace).  Conversions and format specs
    do not occur in this module and are not modelled: a field holding
    one names no keyword and gives [None]. *)
Fixpoint format_from (field : option string) (template : string)
    (kw : kwargs) : option string :=
  match field, template with
  | None, EmptyString => Some EmptyString
  | Some _, EmptyString => None
  | None, String c rest =>
      if Ascii.eqb c lbrace then
        match rest with
        | String c' rest' =>
            if Ascii.eqb c' lbrace
            then option_map (String lbrace) (format_from None rest' kw)
            else format_from (Some EmptyString) rest kw
        | EmptyString => None
        end
      else if Ascii.eqb c rbrace then
        match rest with
        | String c' rest' =>
            if Ascii.eqb c' rbrace
            then option_map (String rbrace) (format_from None rest' kw)
            else None
        | EmptyString => None
        end
      else option_map (String c) (format_from None rest kw)
  | Some name, String c rest =>
      if Ascii.eqb c rbrace then
        match kwarg name kw with
        | Some v => option_map (append v) (format_from None rest kw)
        | None => None
        end
      else format_from (Some (name ++ String c EmptyString)) rest kw
  end.

Definition format (template : string) (kw : kwargs) : option string :=
  format_from None template kw.

(** ** click.style

    [click.style] belongs to an external library.  A styled string is
    kept as the sequence of its pieces: text that went through [style],
    with the keyword arguments of that call, and text that did not.
    [bold] is [None] when the call leaves it out. *)
Inductive piece : Type :=
| Plain (text : string)
| Styled (text : string) (bold : option bool) (fg : option string).

Definition styled := list piece.

Definition plain (text : string) : styled := [Plain text].
Definition style (text : string) (bold : option bool) (fg : option string)
  : styled := [Styled text bold fg].

(** [a + b] on styled strings. *)
Infix "+++" := (@app piece) (at level 60, right associativity).

(** [sep.join(parts)] on styled strings. *)
Fixpoint join (sep : styled) (parts : list styled) : styled :=
  match parts with
  | [] => []
  | [x] => x
  | x :: (_ :: _) as xs => x +++ sep +++ join sep xs
  end.

(** The [str] a styled string stands for, given what [click.style]
    returns for a text and its keyword arguments. *)
Fixpoint to_str (click_style : string -> option bool -> option string -> string)
    (s : styled) : string :=
  match s with
  | [] => EmptyString
  | Plain t :: s' => t ++ to_str click_style s'
  | Styled t b c :: s' => click_style t b c ++ to_str click_style s'
  end.

(** [click.unstyle]: the text with everything [style] added removed. *)
Definition unstyle (s : styled) : string :=
  to_str (fun t _ _ => t) s.

(** The calls of [style] that built a styled string, in order. *)
Fixpoint style_calls (s : styled) : list (string * option bool * option string) :=
  match s with
  | [] => []
  | Plain _ :: s' => style_calls s'
  | Styled t b c :: s' => (t, b, c) :: style_calls s'
  end.

(** ** Console output and exceptions

    A method returns its updated object together with the calls it made
    to [black.output], or [None] when it raises. *)
Inductive emitted : Type :=
| Out (message : string) (bold : option bool)
| Err (message : string).

Definition M (A : Type) : Type := option (A * list emitted).

Definition ret {A : Type} (a : A) : M A := Some (a, []).

Definition bind {A B : Type} (m : M A) (k : A -> M B) : M B :=
  match m with
  | None => None
  | Some (a, log) =>
      match k a with
      | None => None
      | Some (b, log') => Some (b, (log ++ log')%list)
      end
  end.

Definition out (message : string) (bold : option bool) : M unit :=
  Some (tt, [Out message bold]).

Definition err (message : string) : M unit :=
  Some (tt, [Err message]).

Definition or_raise {A : Type} (o : option A) : M A :=
  match o with
  | Some a => ret a
  | None => None
  end.

Notation "x <- m ;; k" := (bind m (fun x => k))
  (at level 61, m at next level, right associativity).
Notation "m ;;; k" := (bind m (fun _ => k))
  (at level 61, right associativity).

(** ** The module's types *)

Inductive Changed : Type := NO | CACHED | YES.

Definition Path := string.

(** The capability set both report classes offer ([ReportType]). *)
Class ReportType (R : Type) : Type := {
  rt_done : R -> Path -> Changed -> M R;
  rt_failed : R -> Path -> string -> M R;
  rt_path_ignored : R -> Path -> string -> M R;
  rt_return_code : R -> Z
}.

(** ** class Report *)
Module Report.

Record t : Type := mk {
  check : bool;
  diff : bool;
  quiet : bool;
  verbose : bool;
  change_count : Z;
  same_count : Z;
  failure_count : Z
}.

(** [Report(check=..., diff=..., quiet=..., verbose=...)]: the counters
    take their defaults. *)
Definition new (check diff quiet verbose : bool) : t :=
  mk check diff quiet verbose 0 0 0.

Definition set_change_count (self : t) (n : Z) : t :=
  mk (check self) (diff self) (quiet self) (verbose self)
     n (same_count self) (failure_count self).

Definition set_same_count (self : t) (n : Z) : t :=
  mk (check self) (diff self) (quiet self) (verbose self)
     (change_count self) n (failure_count self).

Definition set_failure_count (self : t) (n : Z) : t :=
  mk (check self) (diff self) (quiet self) (verbose self)
     (change_count self) (same_count self) n.

Definition done (self : t) (src : Path) (changed : Changed) : M t :=
  match changed with
  | YES =>
      let reformatted :=
        if check self || diff self then "would reformat" else "reformatted" in
      (if verbose self || negb (quiet self)
       then out (reformatted ++ " " ++ src) None
       else ret tt) ;;;
      ret (set_change_count self (change_count self + 1))
  | _ =>
      (if verbose self then
         let msg :=
           match changed with
           | NO => src ++ " already well formatted, good job."
           | _ => src ++ " wasn't modified on disk since last run."
           end in
         out msg (Some false)
       else ret tt) ;;;
      ret (set_same_count self (same_count self + 1))
  end.

Definition failed (self : t) (src : Path) (message : string) : M t :=
  err ("error: cannot format " ++ src ++ ": " ++ message) ;;;
  ret (set_failure_count self (failure_count self + 1)).

Definition path_ignored (self : t) (path : Path) (message : string) : M t :=
  (if verbose self
   then out (path ++ " ignored: " ++ message) (Some false)
   else ret tt) ;;;
  ret self.

Definition return_code (self : t) : Z :=
  if truthy (failure_count self) then 123
  else if truthy (change_count self) && check self then 1
  else 0.

Definition __str__ (self : t) : styled :=
  let '(reformatted, unchanged, failed) :=
    if check self || diff self
    then ("would be reformatted", "would be left unchanged",
          "would fail to reformat")
    else ("reformatted", "left unchanged", "failed to reformat") in
  let report : list styled := [] in
  let report :=
    if truthy (change_count self) then
      let s := if change_count self >? 1 then "s" else "" in
      (report ++
       [style (str_of_int (change_count self) ++ " file" ++ s ++ " ")
              (Some true) (Some "blue")
        +++ style reformatted (Some true) None])%list
    else report in
  let report :=
    if truthy (same_count self) then
      let s := if same_count self >? 1 then "s" else "" in
      (report ++
       [style (str_of_int (same_count self) ++ " file" ++ s ++ " ")
              None (Some "blue")
        +++ plain unchanged])%list
    else report in
  let report :=
    if truthy (failure_count self) then
      let s := if failure_count self >? 1 then "s" else "" in
      (report ++
       [style (str_of_int (failure_count self) ++ " file" ++ s ++ " " ++ failed)
              None (Some "red")])%list
    else report in
  join (plain ", ") report +++ plain ".".

#[global] Instance reportType : ReportType t := {
  rt_done := done;
  rt_failed := failed;
  rt_path_ignored := path_ignored;
  rt_return_code := return_code
}.

End Report.

(** ** class JunitReport *)
Module JunitReport.

Record t : Type := mk {
  check : bool;
  diff : bool;
  quiet : bool;
  verbose : bool;
  change_count : Z;
  same_count : Z;
  skipped_count : Z;
  failure_count : Z;
  error_count : Z;
  tests : list string
}.

(** [JunitReport(check=..., diff=..., quiet=..., verbose=...)]: the
    counters start at 0 and [tests] is a new empty list. *)
Definition new (check diff quiet verbose : bool) : t :=
  mk check diff quiet verbose 0 0 0 0 0 [].

Definition set_change_count (self : t) (n : Z) : t :=
  mk (check self) (diff self) (quiet self) (verbose self)
     n (same_count self) (skipped_count self) (failure_count self)
     (error_count self) (tests self).

Definition set_same_count (self : t) (n : Z) : t :=
  mk (check self) (diff self) (quiet self) (verbose self)
     (change_count self) n (skipped_count self) (failure_count self)
     (error_count self) (tests self).

Definition set_skipped_count (self : t) (n : Z) : t :=
  mk (check self) (diff self) (quiet self) (verbose self)
     (change_count self) (same_count self) n (failure_count self)
     (error_count self) (tests self).

Definition set_failure_count (self : t) (n : Z) : t :=
  mk (check self) (diff self) (quiet self) (verbose self)
     (change_count self) (same_count self) (skipped_count self) n
     (error_count self) (tests self).

(** [self.tests.append(fragment)]. *)
Definition tests_append (self : t) (fragment : string) : t :=
  mk (check self) (diff self) (quiet self) (verbose self)
     (change_count self) (same_count self) (skipped_count self)
     (failure_count self) (error_count self)
     (tests self ++ [fragment])%list.

(** The class constants.  A quoted attribute value is written [q v]. *)
Definition q (v : string) : string := dq ++ v ++ dq.

Definition BODY : string :=
  "<?xml version=" ++ q "1.0" ++ " encoding=" ++ q "utf-8" ++ "?>" ++ nl ++
  "<testsuite failures=" ++ q "{failed}" ++ " errors=" ++ q "{errors}" ++
  " name=" ++ q "black" ++ nl ++
  "skipped=" ++ q "{skipped}" ++ " tests=" ++ q "{combined}" ++ ">" ++ nl ++
  "{tests}</testsuite>".

Definition PASS_MSG : string :=
  tab ++ "<testcase classname=" ++ q "black" ++ " file=" ++ q "{file}" ++ nl ++
  "    name=" ++ q "black-{file}" ++ "></testcase>" ++ nl.

Definition SKIP_MSG : string :=
  tab ++ "<testcase classname=" ++ q "black" ++ " file=" ++ q "{file}" ++ nl ++
  "    name=" ++ q "black-{file}" ++ ">" ++ nl ++
  "            <skipped message=" ++ q "{msg}" ++ " />" ++ nl ++
  "    </testcase>" ++ nl.

Definition FAIL_MSG : string :=
  tab ++ "<testcase classname=" ++ q "black" ++ " file=" ++ q "{file}" ++ nl ++
  "    name=" ++ q "black-{file}" ++ ">" ++ nl ++
  "            <failure message=" ++ q "{msg}" ++ " />" ++ nl ++
  "    </testcase>" ++ nl.

Definition ERROR_MSG : string :=
  tab ++ "<testcase classname=" ++ q "black" ++ " file=" ++ q "{file}" ++ nl ++
  "    name=" ++ q "black-{file}" ++ ">" ++ nl ++
  "            <error message=" ++ q "{msg}" ++ " />" ++ nl ++
  "    </testcase>" ++ nl.

Definition done (self : t) (src : Path) (changed : Changed) : M t :=
  match changed with
  | YES =>
      let reformatted :=
        if check self || diff self then "would reformat" else "reformatted" in
      self <- (if verbose self || negb (quiet self) then
                 fragment <- or_raise (format FAIL_MSG
                                         [("file", src); ("msg", reformatted)]) ;;
                 ret (tests_append self fragment)
               else ret self) ;;
      ret (set_change_count self 1)
  | NO =>
      let msg := src ++ " already well formatted, good job." in
      fragment <- or_raise (format PASS_MSG [("file", src); ("msg", msg)]) ;;
      ret (set_same_count (tests_append self fragment) 1)
  | CACHED =>
      let msg := src ++ " wasn't modified on disk since last run." in
      fragment <- or_raise (format PASS_MSG [("file", src); ("msg", msg)]) ;;
      ret (set_same_count (tests_append self fragment) 1)
  end.

Definition failed (self : t) (src : Path) (message : string) : M t :=
  fragment <- or_raise (format ERROR_MSG
                [("file", src);
                 ("msg", "error: cannot format " ++ src ++ ": " ++ message)]) ;;
  ret (set_failure_count (tests_append self fragment) 1).

Definition path_ignored (self : t) (path : Path) (message : string) : M t :=
  if verbose self then
    fragment <- or_raise (format SKIP_MSG
                  [("file", path);
                   ("msg", path ++ " ignored: " ++ message)]) ;;
    let self := tests_append self fragment in
    ret (set_skipped_count self (skipped_count self + 1))
  else ret self.

Definition return_code (self : t) : Z :=
  if truthy (failure_count self) then 123
  else if truthy (change_count self) && check self then 1
  else 0.

(** [__str__] raises when [format] does; [None] stands for that. *)
Definition __str__ (self : t) : option string :=
  let combined_tests :=
    change_count self + same_count self + failure_count self
    + skipped_count self in
  match format BODY
          [("failed", str_of_int (change_count self));
           ("errors", str_of_int (failure_count self));
           ("skipped", str_of_int (skipped_count self));
           ("combined", str_of_int combined_tests);
           ("tests", String.concat "" (tests self))] with
  | Some body => Some (String.concat "" [body])
  | None => None
  end.

Definition summary (self : t) : styled :=
  let '(reformatted, unchanged, failed) :=
    if check self || diff self
    then ("would be reformatted", "would be left unchanged",
          "would fail to reformat")
    else ("reformatted", "left unchanged", "failed to reformat") in
  let report : list styled := [] in
  let report :=
    if truthy (change_count self) then
      let s := if change_count self >? 1 then "s" else "" in
      (report ++
       [style (str_of_int (change_count self) ++ " file" ++ s ++ " "
               ++ reformatted)
              (Some true) None])%list
    else report in
  let report :=
    if truthy (same_count self) then
      let s := if same_count self >? 1 then "s" else "" in
      (report ++
       [plain (str_of_int (same_count self) ++ " file" ++ s ++ " "
               ++ unchanged)])%list
    else report in
  let report :=
    if truthy (failure_count self) then
      let s := if failure_count self >? 1 then "s" else "" in
      (report ++
       [style (str_of_int (failure_count self) ++ " file" ++ s ++ " " ++ failed)
              None (Some "red")])%list
    else report in
  join (plain ", ") report +++ plain ".".

#[global] Instance reportType : ReportType t := {
  rt_done := done;
  rt_failed := failed;
  rt_path_ignored := path_ignored;
  rt_return_code := return_code
}.

End JunitReport.

(** ** Sequences of calls

    The traversal calls one of [done], [failed] and [path_ignored] per
    file on one report object. *)
Inductive call : Type :=
| Done (src : Path) (changed : Changed)
| Failed (src : Path) (message : string)
| Ignored (path : Path) (message : string).

Definition record {R : Type} `{ReportType R} (self : R) (c : call) : M R :=
  match c with
  | Done src changed => rt_done self src changed
  | Failed src message => rt_failed self src message
  | Ignored path message => rt_path_ignored self path message
  end.

Fixpoint run {R : Type} `{ReportType R} (self : R) (cs : list call) : M R :=
  match cs with
  | [] => ret self
  | c :: cs' => self' <- record self c ;; run self' cs'
  end.

Definition is_done (c : call) : bool :=
  match c with Done _ _ => true | _ => false end.
Definition is_failed (c : call) : bool :=
  match c with Failed _ _ => true | _ => false end.
Definition is_ignored (c : call) : bool :=
  match c with Ignored _ _ => true | _ => false end.

Definition is_changed (c : call) : bool :=
  match c with Done _ YES => true | _ => false end.
Definition is_unchanged (c : call) : bool :=
  match c with Done _ NO | Done _ CACHED => true | _ => false end.

(** How many calls of a kind a sequence holds. *)
Definition calls (kind : call -> bool) (cs : list call) : Z :=
  Z.of_nat (List.length (List.filter kind cs)).

(** Reading a rendered document back: the value of the first attribute
    [name] in [xml], up to its closing quote. *)
Definition xml_attribute (name xml : string) : option string :=
  let opening := name ++ "=" ++ dq in
  match String.index 0 opening xml with
  | None => None
  | Some i =>
      let start := (i + String.length opening)%nat in
      let rest := String.substring start (String.length xml - start) xml in
      match String.index 0 dq rest with
      | None => None
      | Some j => Some (String.substring 0 j rest)
      end
  end.

(** [needle in text]. *)
Definition contains (needle text : string) : bool :=
  match String.index 0 needle text with
  | Some _ => true
  | None => false
  end.

(** The path a call is about. *)
Definition path_of (c : call) : Path :=
  match c with
  | Done src _ => src
  | Failed src _ => src
  | Ignored path _ => path
  end.

Definition quote : ascii := ascii_of_nat 34.

(** The text of [s] before its first double quote, all of [s] when it
    has none. *)
Fixpoint upto_quote (s : string) : string :=
  match s with
  | EmptyString => EmptyString
  | String c s' =>
      if Ascii.eqb c quote then EmptyString else String c (upto_quote s')
  end.

(** The three ways a counter that is not negative enters a sentence:
    it is 0, it is 1, or it is greater than 1. *)
Ltac counter_cases n :=
  destruct (Z.eqb_spec n 0) as [->|?];
  [|destruct (Z.eqb_spec n 1) as [->|?];
    [|replace (n >? 1) with true by (symmetry; apply Z.gtb_lt; lia)]].

(** * Properties *)

(** ** The templates always format *)

Lemma format_PASS_MSG (file msg : string) :
  format JunitReport.PASS_MSG [("file", file); ("msg", msg)] =
  Some (tab ++ "<testcase classname=" ++ dq ++ "black" ++ dq ++
        " file=" ++ dq ++ file ++ dq ++ nl ++
        "    name=" ++ dq ++ "black-" ++ file ++ dq ++ "></testcase>" ++ nl).
Proof. reflexivity. Qed.

Lemma format_FAIL_MSG (file msg : string) :
  format JunitReport.FAIL_MSG [("file", file); ("msg", msg)] =
  Some (tab ++ "<testcase classname=" ++ dq ++ "black" ++ dq ++
        " file=" ++ dq ++ file ++ dq ++ nl ++
        "    name=" ++ dq ++ "black-" ++ file ++ dq ++ ">" ++ nl ++
        "            <failure message=" ++ dq ++ msg ++ dq ++ " />" ++ nl ++
        "    </testcase>" ++ nl).
Proof. reflexivity. Qed.

Lemma format_ERROR_MSG (file msg : string) :
  format JunitReport.ERROR_MSG [("file", file); ("msg", msg)] =
  Some (tab ++ "<testcase classname=" ++ dq ++ "black" ++ dq ++
        " file=" ++ dq ++ file ++ dq ++ nl ++
        "    name=" ++ dq ++ "black-" ++ file ++ dq ++ ">" ++ nl ++
        "            <error message=" ++ dq ++ msg ++ dq ++ " />" ++ nl ++
        "    </testcase>" ++ nl).
Proof. reflexivity. Qed.

Lemma format_SKIP_MSG (file msg : string) :
  format JunitReport.SKIP_MSG [("file", file); ("msg", msg)] =
  Some (tab ++ "<testcase classname=" ++ dq ++ "black" ++ dq ++
        " file=" ++ dq ++ file ++ dq ++ nl ++
        "    name=" ++ dq ++ "black-" ++ file ++ dq ++ ">" ++ nl ++
        "            <skipped message=" ++ dq ++ msg ++ dq ++ " />" ++ nl ++
        "    </testcase>" ++ nl).
Proof. reflexivity. Qed.

Lemma format_BODY (failed errors skipped combined tests : string) :
  format JunitReport.BODY
    [("failed", failed); ("errors", errors); ("skipped", skipped);
     ("combined", combined); ("tests", tests)] =
  Some ("<?xml version=" ++ dq ++ "1.0" ++ dq ++
        " encoding=" ++ dq ++ "utf-8" ++ dq ++ "?>" ++ nl ++
        "<testsuite failures=" ++ dq ++ failed ++ dq ++
        " errors=" ++ dq ++ errors ++ dq ++
        " name=" ++ dq ++ "black" ++ dq ++ nl ++
        "skipped=" ++ dq ++ skipped ++ dq ++
        " tests=" ++ dq ++ combined ++ dq ++ ">" ++ nl ++
        tests ++ "</testsuite>").
Proof. reflexivity. Qed.

(** ** Strings *)

Lemma append_assoc (a b c : string) : (a ++ b) ++ c = a ++ b ++ c.
Proof.
  induction a as [|x a IH]; simpl; [reflexivity|].
  rewrite IH. reflexivity.
Qed.

(** ** One call *)

Lemma truthy_pos (n : Z) : 0 <= n -> truthy n = (0 <? n).
Proof.
  intros Hn. unfold truthy.
  destruct (Z.eqb_spec n 0) as [->|Hne]; simpl.
  - reflexivity.
  - symmetry. apply Z.ltb_lt. lia.
Qed.

(** What one call does to a [Report]: it returns, the flags stay, and
    exactly the counter of the call's kind grows by one. *)
Lemma Report_record_step (r : Report.t) (c : call) :
  exists r' log,
    record r c = Some (r', log) /\
    Report.check r' = Report.check r /\
    Report.diff r' = Report.diff r /\
    Report.quiet r' = Report.quiet r /\
    Report.verbose r' = Report.verbose r /\
    Report.change_count r' =
      Report.change_count r + (if is_changed c then 1 else 0) /\
    Report.same_count r' =
      Report.same_count r + (if is_unchanged c then 1 else 0) /\
    Report.failure_count r' =
      Report.failure_count r + (if is_failed c then 1 else 0).
Proof.
  destruct r as [ck df qt vb cc sc fc].
  destruct c as [src [ | | ] | src message | path message]; cbn;
    destruct vb, qt; cbn;
    do 2 eexists; (split; [reflexivity|]); cbn;
    repeat split; lia.
Qed.

(** What one call does to a [JunitReport]: it returns without console
    output, the flags stay, and the counter of the call's kind is set
    to one, the skipped counter apart, which counts. *)
Lemma Junit_record_step (j : JunitReport.t) (c : call) :
  exists j',
    record j c = Some (j', []) /\
    JunitReport.check j' = JunitReport.check j /\
    JunitReport.diff j' = JunitReport.diff j /\
    JunitReport.quiet j' = JunitReport.quiet j /\
    JunitReport.verbose j' = JunitReport.verbose j /\
    JunitReport.change_count j' =
      (if is_changed c then 1 else JunitReport.change_count j) /\
    JunitReport.same_count j' =
      (if is_unchanged c then 1 else JunitReport.same_count j) /\
    JunitReport.failure_count j' =
      (if is_failed c then 1 else JunitReport.failure_count j) /\
    JunitReport.skipped_count j' =
      JunitReport.skipped_count j +
      (if is_ignored c && JunitReport.verbose j then 1 else 0).
Proof.
  destruct j as [ck df qt vb cc sc sk fc ec ts].
  destruct c as [src [ | | ] | src message | path message]; cbn;
    destruct vb, qt; cbn;
    eexists; (split; [reflexivity|]); cbn;
    repeat split; lia.
Qed.

(** ** Sequences of calls *)

Lemma run_cons {R : Type} `{ReportType R} (self : R) (c : call)
    (cs : list call) :
  run self (c :: cs) = bind (record self c) (fun self' => run self' cs).
Proof. reflexivity. Qed.

Lemma bind_Some {A B : Type} (m : M A) (k : A -> M B) a log b log' :
  m = Some (a, log) -> k a = Some (b, log') ->
  bind m k = Some (b, (log ++ log')%list).
Proof. intros -> Hk. unfold bind. rewrite Hk. reflexivity. Qed.

Lemma calls_cons (kind : call -> bool) (c : call) (cs : list call) :
  calls kind (c :: cs) = (if kind c then 1 else 0) + calls kind cs.
Proof.
  unfold calls. cbn [filter]. destruct (kind c); cbn [List.length]; lia.
Qed.

Lemma calls_nonneg (kind : call -> bool) (cs : list call) :
  0 <= calls kind cs.
Proof. unfold calls. lia. Qed.

Lemma calls_existsb (kind : call -> bool) (cs : list call) :
  existsb kind cs = true -> 1 <= calls kind cs.
Proof.
  induction cs as [|c cs IH]; cbn [existsb]; [discriminate|].
  rewrite calls_cons. pose proof (calls_nonneg kind cs).
  destruct (kind c); cbn [orb]; [lia|]. intros Hcs. specialize (IH Hcs). lia.
Qed.

Lemma calls_split_done (cs : list call) :
  calls is_done cs = calls is_changed cs + calls is_unchanged cs.
Proof.
  induction cs as [|c cs IH]; [reflexivity|].
  rewrite !calls_cons, IH.
  destruct c as [src [ | | ] | src message | path message];
    cbn [is_done is_changed is_unchanged]; lia.
Qed.

(** A [Report] takes every sequence of calls, and its counters count the
    calls of their kind. *)
Lemma Report_run_counts (cs : list call) : forall r : Report.t,
  exists r' log,
    run r cs = Some (r', log) /\
    Report.check r' = Report.check r /\
    Report.diff r' = Report.diff r /\
    Report.quiet r' = Report.quiet r /\
    Report.verbose r' = Report.verbose r /\
    Report.change_count r' = Report.change_count r + calls is_changed cs /\
    Report.same_count r' = Report.same_count r + calls is_unchanged cs /\
    Report.failure_count r' = Report.failure_count r + calls is_failed cs.
Proof.
  induction cs as [|c cs IH]; intros r.
  - exists r, []. unfold calls. simpl. repeat split; lia.
  - destruct (Report_record_step r c)
      as (r1 & log1 & E1 & Hck & Hdf & Hqt & Hvb & Hcc & Hsc & Hfc).
    destruct (IH r1)
      as (r2 & log2 & E2 & Hck2 & Hdf2 & Hqt2 & Hvb2 & Hcc2 & Hsc2 & Hfc2).
    exists r2, (log1 ++ log2)%list. rewrite run_cons, !calls_cons.
    split; [exact (bind_Some _ _ _ _ _ _ E1 E2)|].
    repeat split; congruence || lia.
Qed.

(** A [JunitReport] takes every sequence of calls without console
    output; a counter other than the skipped one is 1 once a call of its
    kind was made, and the skipped counter counts the ignored paths of a
    verbose report. *)
Lemma Junit_run_counts (cs : list call) : forall j : JunitReport.t,
  exists j',
    run j cs = Some (j', []) /\
    JunitReport.check j' = JunitReport.check j /\
    JunitReport.diff j' = JunitReport.diff j /\
    JunitReport.quiet j' = JunitReport.quiet j /\
    JunitReport.verbose j' = JunitReport.verbose j /\
    JunitReport.change_count j' =
      (if existsb is_changed cs then 1 else JunitReport.change_count j) /\
    JunitReport.same_count j' =
      (if existsb is_unchanged cs then 1 else JunitReport.same_count j) /\
    JunitReport.failure_count j' =
      (if existsb is_failed cs then 1 else JunitReport.failure_count j) /\
    JunitReport.skipped_count j' =
      JunitReport.skipped_count j +
      (if JunitReport.verbose j then calls is_ignored cs else 0).
Proof.
  induction cs as [|c cs IH]; intros j.
  - exists j. unfold calls. simpl.
    repeat split; destruct (JunitReport.verbose j); lia.
  - destruct (Junit_record_step j c)
      as (j1 & E1 & Hck & Hdf & Hqt & Hvb & Hcc & Hsc & Hfc & Hsk).
    destruct (IH j1)
      as (j2 & E2 & Hck2 & Hdf2 & Hqt2 & Hvb2 & Hcc2 & Hsc2 & Hfc2 & Hsk2).
    exists j2. rewrite run_cons, calls_cons.
    split; [exact (bind_Some _ _ _ _ _ _ E1 E2)|].
    rewrite Hvb in Hsk2. simpl existsb.
    repeat split; try congruence.
    + rewrite Hcc2, Hcc.
      destruct (is_changed c), (existsb is_changed cs); reflexivity.
    + rewrite Hsc2, Hsc.
      destruct (is_unchanged c), (existsb is_unchanged cs); reflexivity.
    + rewrite Hfc2, Hfc.
      destruct (is_failed c), (existsb is_failed cs); reflexivity.
    + rewrite Hsk2, Hsk.
      destruct (is_ignored c), (JunitReport.verbose j); cbn [andb]; lia.
Qed.

(** The counters of a report that started new are never negative. *)
Lemma Report_new_run_nonneg (ck df qt vb : bool) (cs : list call) :
  exists r' log,
    run (Report.new ck df qt vb) cs = Some (r', log) /\
    0 <= Report.change_count r' /\
    0 <= Report.same_count r' /\
    0 <= Report.failure_count r'.
Proof.
  destruct (Report_run_counts cs (Report.new ck df qt vb))
    as (r' & log & E & _ & _ & _ & _ & Hcc & Hsc & Hfc).
  simpl in Hcc, Hsc, Hfc.
  pose proof (calls_nonneg is_changed cs).
  pose proof (calls_nonneg is_unchanged cs).
  pose proof (calls_nonneg is_failed cs).
  exists r', log. repeat split; [exact E|lia..].
Qed.

Lemma Junit_new_run_nonneg (ck df qt vb : bool) (cs : list call) :
  exists j',
    run (JunitReport.new ck df qt vb) cs = Some (j', []) /\
    0 <= JunitReport.change_count j' /\
    0 <= JunitReport.same_count j' /\
    0 <= JunitReport.failure_count j' /\
    0 <= JunitReport.skipped_count j'.
Proof.
  destruct (Junit_run_counts cs (JunitReport.new ck df qt vb))
    as (j' & E & _ & _ & _ & _ & Hcc & Hsc & Hfc & Hsk).
  simpl in Hcc, Hsc, Hfc, Hsk.
  pose proof (calls_nonneg is_ignored cs).
  exists j'. split; [exact E|].
  repeat split.
  - rewrite Hcc. destruct (existsb is_changed cs); lia.
  - rewrite Hsc. destruct (existsb is_unchanged cs); lia.
  - rewrite Hfc. destruct (existsb is_failed cs); lia.
  - rewrite Hsk. destruct vb; lia.
Qed.

(** ** The exit code *)

(** C1.  For [Report] and for [JunitReport], on counters that are not
    negative, [return_code] is 123 when [failure_count > 0], otherwise 1
    when [change_count > 0] and [check] is set, otherwise 0.  After every
    sequence of calls that holds a call of [failed], either report
    returns 123, whatever else was recorded. *)
Theorem return_code_priority (r : Report.t) (j : JunitReport.t)
    (cs : list call)
    (Hrf : 0 <= Report.failure_count r)
    (Hrc : 0 <= Report.change_count r)
    (Hjf : 0 <= JunitReport.failure_count j)
    (Hjc : 0 <= JunitReport.change_count j) :
  Report.return_code r =
    (if 0 <? Report.failure_count r then 123
     else if (0 <? Report.change_count r) && Report.check r then 1
     else 0) /\
  JunitReport.return_code j =
    (if 0 <? JunitReport.failure_count j then 123
     else if (0 <? JunitReport.change_count j) && JunitReport.check j then 1
     else 0) /\
  (existsb is_failed cs = true ->
   (exists r' log, run r cs = Some (r', log) /\ Report.return_code r' = 123) /\
   (exists j', run j cs = Some (j', []) /\ JunitReport.return_code j' = 123)).
Proof.
  split; [|split].
  - unfold Report.return_code. rewrite !truthy_pos by assumption. reflexivity.
  - unfold JunitReport.return_code. rewrite !truthy_pos by assumption.
    reflexivity.
  - intros Hcs. split.
    + destruct (Report_run_counts cs r)
        as (r' & log & E & _ & _ & _ & _ & _ & _ & Hfc).
      exists r', log. split; [exact E|].
      pose proof (calls_existsb _ _ Hcs) as Hpos.
      unfold Report.return_code, truthy.
      destruct (Z.eqb_spec (Report.failure_count r') 0) as [Hz|Hnz];
        [lia|reflexivity].
    + destruct (Junit_run_counts cs j)
        as (j' & E & _ & _ & _ & _ & _ & _ & Hfc & _).
      exists j'. split; [exact E|].
      rewrite Hcs in Hfc.
      unfold JunitReport.return_code. rewrite Hfc. reflexivity.
Qed.

(** A run under [--check] with a change, an unchanged file and a failure:
    the report in hand exits with 1, and with 123 after the calls. *)
Lemma return_code_priority_witness :
  let r := Report.mk true false false false 2 1 0 in
  let j := JunitReport.new true false false false in
  let cs := [Done "a.py" YES; Done "b.py" NO; Failed "c.py" "syntax error"] in
  Report.return_code r = 1 /\
  JunitReport.return_code j = 0 /\
  (exists r' log, run r cs = Some (r', log) /\ Report.return_code r' = 123) /\
  (exists j', run j cs = Some (j', []) /\ JunitReport.return_code j' = 123).
Proof.
  intros r j cs.
  destruct (return_code_priority r j cs) as (Hr & Hj & Hseq);
    try (simpl; lia).
  destruct (Hseq eq_refl) as [Hrun Hjrun].
  split; [exact Hr|]. split; [exact Hj|]. split; [exact Hrun|exact Hjrun].
Defined.

(** ** Counters *)

(** C6.  On a [Report], every sequence of calls returns; afterwards
    [change_count + same_count] has grown by the number of calls of
    [done] and [failure_count] by the number of calls of [failed], so on
    a new report they equal these numbers.  A call of [done] adds one to
    [change_count] when the file changed and one to [same_count]
    otherwise, a call of [failed] adds one to [failure_count], no counter
    ever decreases, and [path_ignored] leaves the report as it is. *)
Theorem Report_counters_count_calls (r : Report.t) (cs : list call)
    (ck df qt vb : bool) (src : Path) (changed : Changed)
    (message : string) :
  (exists r' log,
     run (Report.new ck df qt vb) cs = Some (r', log) /\
     Report.change_count r' + Report.same_count r' = calls is_done cs /\
     Report.failure_count r' = calls is_failed cs) /\
  (exists r' log,
     run r cs = Some (r', log) /\
     Report.change_count r' + Report.same_count r' =
       Report.change_count r + Report.same_count r + calls is_done cs /\
     Report.failure_count r' = Report.failure_count r + calls is_failed cs /\
     Report.change_count r <= Report.change_count r' /\
     Report.same_count r <= Report.same_count r' /\
     Report.failure_count r <= Report.failure_count r') /\
  (exists r' log,
     Report.done r src changed = Some (r', log) /\
     Report.change_count r' =
       Report.change_count r + (match changed with YES => 1 | _ => 0 end) /\
     Report.same_count r' =
       Report.same_count r + (match changed with YES => 0 | _ => 1 end) /\
     Report.failure_count r' = Report.failure_count r) /\
  (exists r' log,
     Report.failed r src message = Some (r', log) /\
     Report.change_count r' = Report.change_count r /\
     Report.same_count r' = Report.same_count r /\
     Report.failure_count r' = Report.failure_count r + 1) /\
  (exists log, Report.path_ignored r src message = Some (r, log)).
Proof.
  repeat apply conj.
  - destruct (Report_run_counts cs (Report.new ck df qt vb))
      as (r' & log & E & _ & _ & _ & _ & Hcc & Hsc & Hfc).
    exists r', log. rewrite calls_split_done. simpl in Hcc, Hsc, Hfc.
    repeat split; [exact E|lia|lia].
  - destruct (Report_run_counts cs r)
      as (r' & log & E & _ & _ & _ & _ & Hcc & Hsc & Hfc).
    exists r', log. rewrite calls_split_done.
    pose proof (calls_nonneg is_changed cs).
    pose proof (calls_nonneg is_unchanged cs).
    pose proof (calls_nonneg is_failed cs).
    repeat split; [exact E|lia..].
  - destruct (Report_record_step r (Done src changed))
      as (r' & log & E & _ & _ & _ & _ & Hcc & Hsc & Hfc).
    exists r', log. split; [exact E|].
    destruct changed; simpl in Hcc, Hsc, Hfc; repeat split; lia.
  - destruct (Report_record_step r (Failed src message))
      as (r' & log & E & _ & _ & _ & _ & Hcc & Hsc & Hfc).
    exists r', log. split; [exact E|].
    simpl in Hcc, Hsc, Hfc; repeat split; lia.
  - unfold Report.path_ignored.
    destruct (Report.verbose r); eexists; reflexivity.
Qed.

(** C5.  On a [JunitReport] whose [change_count], [same_count] and
    [failure_count] are 0 or 1, every sequence of calls returns and
    leaves each of them 0 or 1: a call sets its counter to 1 and none
    adds to it.  [skipped_count] grows by the number of calls of
    [path_ignored] when [verbose] is set, and a call of [path_ignored]
    on a report that is not verbose leaves the report as it is. *)
Theorem Junit_counters_are_flags (j : JunitReport.t) (cs : list call)
    (Hcc : JunitReport.change_count j = 0 \/ JunitReport.change_count j = 1)
    (Hsc : JunitReport.same_count j = 0 \/ JunitReport.same_count j = 1)
    (Hfc : JunitReport.failure_count j = 0 \/ JunitReport.failure_count j = 1) :
  exists j',
    run j cs = Some (j', []) /\
    (JunitReport.change_count j' = 0 \/ JunitReport.change_count j' = 1) /\
    (JunitReport.same_count j' = 0 \/ JunitReport.same_count j' = 1) /\
    (JunitReport.failure_count j' = 0 \/ JunitReport.failure_count j' = 1) /\
    (existsb is_changed cs = true -> JunitReport.change_count j' = 1) /\
    (existsb is_unchanged cs = true -> JunitReport.same_count j' = 1) /\
    (existsb is_failed cs = true -> JunitReport.failure_count j' = 1) /\
    JunitReport.skipped_count j' =
      JunitReport.skipped_count j +
      (if JunitReport.verbose j then calls is_ignored cs else 0) /\
    (JunitReport.verbose j = false ->
     forall path message,
       JunitReport.path_ignored j path message = Some (j, [])).
Proof.
  destruct (Junit_run_counts cs j)
    as (j' & E & _ & _ & _ & _ & Hcc' & Hsc' & Hfc' & Hsk').
  exists j'. split; [exact E|].
  repeat apply conj.
  - rewrite Hcc'. destruct (existsb is_changed cs); [right; reflexivity|exact Hcc].
  - rewrite Hsc'. destruct (existsb is_unchanged cs); [right; reflexivity|exact Hsc].
  - rewrite Hfc'. destruct (existsb is_failed cs); [right; reflexivity|exact Hfc].
  - intros H. rewrite H in Hcc'. exact Hcc'.
  - intros H. rewrite H in Hsc'. exact Hsc'.
  - intros H. rewrite H in Hfc'. exact Hfc'.
  - exact Hsk'.
  - intros Hv path message. unfold JunitReport.path_ignored.
    rewrite Hv. reflexivity.
Qed.

(** Three changed files and two ignored paths: a verbose report ends
    with [change_count = 1] and [skipped_count = 2]; a report that is not
    verbose skips nothing. *)
Lemma Junit_counters_are_flags_witness :
  let cs := [Done "a.py" YES; Ignored "b" "no match"; Done "c.py" YES;
             Done "d.py" YES; Ignored "e" "no match"] in
  (exists j', run (JunitReport.new false false false true) cs = Some (j', []) /\
              JunitReport.change_count j' = 1 /\
              JunitReport.skipped_count j' = 2) /\
  (exists j', run (JunitReport.new false false false false) cs = Some (j', []) /\
              JunitReport.change_count j' = 1 /\
              JunitReport.skipped_count j' = 0 /\
              JunitReport.path_ignored j' "b" "no match" = Some (j', [])).
Proof.
  intros cs. split.
  - destruct (Junit_counters_are_flags (JunitReport.new false false false true) cs)
      as (j' & E & _ & _ & _ & Hcc & _ & _ & Hsk & _);
      try (left; reflexivity).
    exists j'. split; [exact E|]. split; [exact (Hcc eq_refl)|exact Hsk].
  - destruct (Junit_counters_are_flags (JunitReport.new false false false false) cs)
      as (j' & E & _ & _ & _ & Hcc & _ & _ & Hsk & _);
      try (left; reflexivity).
    exists j'. split; [exact E|]. split; [exact (Hcc eq_refl)|].
    split; [exact Hsk|].
    destruct (Junit_run_counts cs (JunitReport.new false false false false))
      as (j2 & E2 & _ & _ & _ & Hvb & _).
    assert (j2 = j') as -> by congruence.
    unfold JunitReport.path_ignored. rewrite Hvb. reflexivity.
Defined.

(** ** Test-case fragments *)

(** C2, as the code has it.  When [verbose] is set or [quiet] is not, a
    call of [done] with [Changed.YES] appends one failure fragment and
    sets [change_count] to 1.  The fragment names the path in its
    attributes [file] and [name]; its message is the verb alone,
    [would reformat] under [check] or [diff] and [reformatted]
    otherwise. *)
Theorem Junit_done_changed_fragment (self : JunitReport.t) (src : Path)
    (Hshown : JunitReport.verbose self || negb (JunitReport.quiet self) = true) :
  JunitReport.done self src YES =
  Some (JunitReport.set_change_count
          (JunitReport.tests_append self
             (tab ++ "<testcase classname=" ++ dq ++ "black" ++ dq ++
              " file=" ++ dq ++ src ++ dq ++ nl ++
              "    name=" ++ dq ++ "black-" ++ src ++ dq ++ ">" ++ nl ++
              "            <failure message=" ++ dq ++
              (if JunitReport.check self || JunitReport.diff self
               then "would reformat" else "reformatted") ++
              dq ++ " />" ++ nl ++
              "    </testcase>" ++ nl))
          1,
        []).
Proof.
  unfold JunitReport.done. rewrite Hshown.
  rewrite format_FAIL_MSG. reflexivity.
Qed.

(** A report with the default flags and one under [--check], each given
    [a.py] as changed: the message attribute read back from the fragment
    is the verb. *)
Lemma Junit_done_changed_fragment_witness :
  (exists self' fragment,
     JunitReport.done (JunitReport.new false false false false) "a.py" YES =
       Some (self', []) /\
     JunitReport.tests self' = [fragment] /\
     xml_attribute "file" fragment = Some "a.py" /\
     xml_attribute "message" fragment = Some "reformatted") /\
  (exists self' fragment,
     JunitReport.done (JunitReport.new true false false false) "a.py" YES =
       Some (self', []) /\
     JunitReport.tests self' = [fragment] /\
     xml_attribute "file" fragment = Some "a.py" /\
     xml_attribute "message" fragment = Some "would reformat").
Proof.
  split.
  - do 2 eexists. split.
    + apply (Junit_done_changed_fragment
               (JunitReport.new false false false false) "a.py").
      reflexivity.
    + repeat split; reflexivity.
  - do 2 eexists. split.
    + apply (Junit_done_changed_fragment
               (JunitReport.new true false false false) "a.py").
      reflexivity.
    + repeat split; reflexivity.
Defined.

(** C2 fails as stated: for the path [a.py] on a report with the default
    flags, the message attribute of the appended failure fragment is
    [reformatted]; the path is no part of it. *)
Lemma Junit_done_changed_message_lacks_path :
  exists self' fragment,
    JunitReport.done (JunitReport.new false false false false) "a.py" YES =
      Some (self', []) /\
    JunitReport.tests self' = [fragment] /\
    xml_attribute "message" fragment = Some "reformatted" /\
    xml_attribute "message" fragment <> Some "reformatted a.py" /\
    contains "a.py" "reformatted" = false.
Proof.
  do 2 eexists. split; [reflexivity|].
  repeat split; try reflexivity.
  vm_compute. discriminate.
Qed.

(** C3, as the code has it.  A call of [done] with [Changed.NO] or
    [Changed.CACHED] appends one pass fragment and sets [same_count] to
    1, whatever [verbose] and [quiet] are.  The fragment holds the path
    in its attributes [file] and [name] and nothing else: the template
    has no field for the message the call passes, and both outcomes
    append the same fragment. *)
Theorem Junit_done_unchanged_fragment (self : JunitReport.t) (src : Path) :
  let fragment :=
    tab ++ "<testcase classname=" ++ dq ++ "black" ++ dq ++
    " file=" ++ dq ++ src ++ dq ++ nl ++
    "    name=" ++ dq ++ "black-" ++ src ++ dq ++ "></testcase>" ++ nl in
  JunitReport.done self src NO =
    Some (JunitReport.set_same_count
            (JunitReport.tests_append self fragment) 1, []) /\
  JunitReport.done self src CACHED =
    Some (JunitReport.set_same_count
            (JunitReport.tests_append self fragment) 1, []).
Proof.
  unfold JunitReport.done. rewrite !format_PASS_MSG. split; reflexivity.
Qed.

(** C3 fails as stated: for the path [a.py] on a verbose report, the
    fragment appended for [Changed.NO] is the one appended for
    [Changed.CACHED]; it has no message attribute and holds neither
    message text. *)
Lemma Junit_done_unchanged_message_dropped :
  exists self1 self2 fragment,
    JunitReport.done (JunitReport.new false false false true) "a.py" NO =
      Some (self1, []) /\
    JunitReport.tests self1 = [fragment] /\
    JunitReport.done (JunitReport.new false false false true) "a.py" CACHED =
      Some (self2, []) /\
    JunitReport.tests self2 = [fragment] /\
    xml_attribute "message" fragment = None /\
    contains "a.py already well formatted, good job." fragment = false /\
    contains "a.py wasn't modified on disk since last run." fragment = false.
Proof.
  do 3 eexists. split; [reflexivity|].
  repeat split; reflexivity.
Qed.

(** ** The JUnit document *)

(** C4.  [__str__] returns one [testsuite] element: [failures] is
    [change_count], [errors] is [failure_count], [skipped] is
    [skipped_count], [tests] is the sum of these three and [same_count],
    and the body is the fragments of [tests], joined in list order.  The
    list is in append order: a call keeps the fragments it finds and adds
    at most one, at the end. *)
Theorem Junit_str_testsuite (self : JunitReport.t) (c : call) :
  JunitReport.__str__ self =
  Some ("<?xml version=" ++ dq ++ "1.0" ++ dq ++
        " encoding=" ++ dq ++ "utf-8" ++ dq ++ "?>" ++ nl ++
        "<testsuite failures=" ++ dq ++
        str_of_int (JunitReport.change_count self) ++ dq ++
        " errors=" ++ dq ++
        str_of_int (JunitReport.failure_count self) ++ dq ++
        " name=" ++ dq ++ "black" ++ dq ++ nl ++
        "skipped=" ++ dq ++
        str_of_int (JunitReport.skipped_count self) ++ dq ++
        " tests=" ++ dq ++
        str_of_int (JunitReport.change_count self
                    + JunitReport.same_count self
                    + JunitReport.failure_count self
                    + JunitReport.skipped_count self) ++ dq ++ ">" ++ nl ++
        String.concat "" (JunitReport.tests self) ++ "</testsuite>") /\
  (exists self' added,
     record self c = Some (self', []) /\
     JunitReport.tests self' = (JunitReport.tests self ++ added)%list /\
     (List.length added <= 1)%nat).
Proof.
  split.
  - unfold JunitReport.__str__. rewrite format_BODY. reflexivity.
  - destruct self as [ck df qt vb cc sc sk fc ec ts].
    destruct c as [src [ | | ] | src message | path message]; cbn;
      destruct vb, qt; cbn;
      try (eexists; eexists [_]; split; [reflexivity|];
           split; [reflexivity|apply le_n]);
      (eexists; exists []; split; [reflexivity|];
       split; [rewrite app_nil_r; reflexivity|apply Nat.le_0_l]).
Qed.

(** A changed file, then a failure: the document counts one failure, one
    error and two tests, and holds the two fragments in call order. *)
Example Junit_str_changed_then_failed :
  exists self xml,
    run (JunitReport.new false false false false)
        [Done "a.py" YES; Failed "b.py" "boom"] = Some (self, []) /\
    JunitReport.__str__ self = Some xml /\
    xml_attribute "failures" xml = Some "1" /\
    xml_attribute "errors" xml = Some "1" /\
    xml_attribute "skipped" xml = Some "0" /\
    xml_attribute "tests" xml = Some "2" /\
    List.length (JunitReport.tests self) = 2%nat /\
    List.map (xml_attribute "file") (JunitReport.tests self) =
      [Some "a.py"; Some "b.py"].
Proof.
  do 2 eexists. split; [reflexivity|]. split; [reflexivity|].
  repeat split; reflexivity.
Qed.

(** ** The summary sentence *)

(** C7.  On counters that are not negative, the text of [str(report)]
    is the clauses for the changed, the unchanged and the failed files,
    in this order and joined by a comma and a space, then a period.  A
    clause is left out when its counter is 0; it reads [1 file] for the
    counter 1 and [N files] for a greater counter [N], then the verb
    phrase, which is the conditional one under [check] or [diff]. *)
Theorem Report_str_sentence (r : Report.t)
    (Hcc : 0 <= Report.change_count r)
    (Hsc : 0 <= Report.same_count r)
    (Hfc : 0 <= Report.failure_count r) :
  let would := Report.check r || Report.diff r in
  let count n := if n =? 1 then "1 file" else str_of_int n ++ " files" in
  let clause n verb := if n =? 0 then [] else [count n ++ " " ++ verb] in
  unstyle (Report.__str__ r) =
  String.concat ", "
    (clause (Report.change_count r)
            (if would then "would be reformatted" else "reformatted") ++
     clause (Report.same_count r)
            (if would then "would be left unchanged" else "left unchanged") ++
     clause (Report.failure_count r)
            (if would then "would fail to reformat"
             else "failed to reformat"))%list
  ++ ".".
Proof.
  intros would count clause. subst would count clause.
  destruct r as [ck df qt vb cc sc fc].
  cbn [Report.change_count Report.same_count Report.failure_count
       Report.check Report.diff] in *.
  unfold Report.__str__, truthy.
  cbn [Report.change_count Report.same_count Report.failure_count
       Report.check Report.diff].
  destruct (ck || df);
    counter_cases cc; counter_cases sc; counter_cases fc;
    repeat (progress (cbn; rewrite ?append_assoc)); reflexivity.
Qed.

(** One changed file reads [1 file reformatted], two read
    [2 files reformatted]; under [--check], one changed, one unchanged
    and one failed file give the three clauses in order. *)
Lemma Report_str_sentence_witness :
  unstyle (Report.__str__ (Report.mk false false false false 1 0 0)) =
    "1 file reformatted." /\
  unstyle (Report.__str__ (Report.mk false false false false 2 0 0)) =
    "2 files reformatted." /\
  unstyle (Report.__str__ (Report.mk true false false false 1 1 1)) =
    "1 file would be reformatted, 1 file would be left unchanged, 1 file would fail to reformat.".
Proof.
  split; [|split].
  - apply (Report_str_sentence (Report.mk false false false false 1 0 0));
      simpl; lia.
  - apply (Report_str_sentence (Report.mk false false false false 2 0 0));
      simpl; lia.
  - apply (Report_str_sentence (Report.mk true false false false 1 1 1));
      simpl; lia.
Defined.

(** C8.  For equal flags [check] and [diff] and equal counters,
    [JunitReport.summary] and [Report.__str__] have the same text.  They
    differ in the calls of [style]: [summary] styles the changed clause
    bold without a colour and the failed clause red and leaves the
    unchanged clause plain; [Report.__str__] styles the count of the
    changed clause bold blue and its verb bold, the count of the
    unchanged clause blue, and the failed clause red. *)
Theorem summary_matches_Report_str (r : Report.t) (j : JunitReport.t)
    (Hck : JunitReport.check j = Report.check r)
    (Hdf : JunitReport.diff j = Report.diff r)
    (Hcc : JunitReport.change_count j = Report.change_count r)
    (Hsc : JunitReport.same_count j = Report.same_count r)
    (Hfc : JunitReport.failure_count j = Report.failure_count r) :
  let would := Report.check r || Report.diff r in
  let reformatted := if would then "would be reformatted" else "reformatted" in
  let failed := if would then "would fail to reformat" else "failed to reformat" in
  let count n := str_of_int n ++ " file" ++ (if n >? 1 then "s" else "") ++ " " in
  unstyle (JunitReport.summary j) = unstyle (Report.__str__ r) /\
  style_calls (JunitReport.summary j) =
    ((if truthy (Report.change_count r)
      then [((count (Report.change_count r) ++ reformatted)%string,
             Some true, None)]
      else []) ++
     (if truthy (Report.failure_count r)
      then [((count (Report.failure_count r) ++ failed)%string,
             None, Some "red")]
      else []))%list /\
  style_calls (Report.__str__ r) =
    ((if truthy (Report.change_count r)
      then [(count (Report.change_count r), Some true, Some "blue");
            (reformatted, Some true, None)]
      else []) ++
     (if truthy (Report.same_count r)
      then [(count (Report.same_count r), None, Some "blue")]
      else []) ++
     (if truthy (Report.failure_count r)
      then [((count (Report.failure_count r) ++ failed)%string,
             None, Some "red")]
      else []))%list.
Proof.
  intros would reformatted failed count.
  subst would reformatted failed count.
  destruct r as [ck df qt vb cc sc fc].
  destruct j as [ck' df' qt' vb' cc' sc' sk' fc' ec' ts'].
  cbn [Report.change_count Report.same_count Report.failure_count
       Report.check Report.diff
       JunitReport.change_count JunitReport.same_count
       JunitReport.failure_count JunitReport.check JunitReport.diff] in *.
  subst ck' df' cc' sc' fc'.
  unfold JunitReport.summary, Report.__str__, truthy.
  cbn [Report.change_count Report.same_count Report.failure_count
       Report.check Report.diff
       JunitReport.change_count JunitReport.same_count
       JunitReport.failure_count JunitReport.check JunitReport.diff].
  destruct (ck || df);
    destruct (cc =? 0), (cc >? 1), (sc =? 0), (sc >? 1),
             (fc =? 0), (fc >? 1);
    repeat (progress (cbn; rewrite ?append_assoc)); repeat split; reflexivity.
Qed.

(** Two changed, one unchanged and three failed files under [--diff]:
    both renderings read the same, and the colours are where the
    statement puts them. *)
Lemma summary_matches_Report_str_witness :
  let r := Report.mk false true false false 2 1 3 in
  let j := JunitReport.mk false true true false 2 1 0 3 0 [] in
  unstyle (JunitReport.summary j) =
    "2 files would be reformatted, 1 file would be left unchanged, 3 files would fail to reformat." /\
  unstyle (Report.__str__ r) = unstyle (JunitReport.summary j) /\
  style_calls (JunitReport.summary j) =
    [("2 files would be reformatted", Some true, None);
     ("3 files would fail to reformat", None, Some "red")] /\
  style_calls (Report.__str__ r) =
    [("2 files ", Some true, Some "blue");
     ("would be reformatted", Some true, None);
     ("1 file ", None, Some "blue");
     ("3 files would fail to reformat", None, Some "red")].
Proof.
  intros r j.
  destruct (summary_matches_Report_str r j eq_refl eq_refl eq_refl eq_refl
              eq_refl) as (Htext & Hj & Hr).
  split; [rewrite Htext; reflexivity|].
  split; [symmetry; exact Htext|].
  split; [exact Hj|exact Hr].
Defined.

(** C10.  A new [Report] renders as a lone period, and so does the
    summary of a new [JunitReport], under every implementation of
    [click.style]: no clause is present and [style] is not called. *)
Theorem new_reports_render_a_period (ck df qt vb : bool)
    (click_style : string -> option bool -> option string -> string) :
  Report.__str__ (Report.new ck df qt vb) = plain "." /\
  to_str click_style (Report.__str__ (Report.new ck df qt vb)) = "." /\
  JunitReport.summary (JunitReport.new ck df qt vb) = plain "." /\
  to_str click_style (JunitReport.summary (JunitReport.new ck df qt vb)) = ".".
Proof.
  destruct ck, df; repeat split; reflexivity.
Qed.

(** * Further properties *)

(** ** Counting calls *)

Lemma truthy_calls (kind : call -> bool) (cs : list call) :
  truthy (calls kind cs) = existsb kind cs.
Proof.
  induction cs as [|c cs IH]; [reflexivity|].
  rewrite calls_cons. cbn [existsb]. pose proof (calls_nonneg kind cs).
  unfold truthy in *.
  destruct (kind c); cbn [orb].
  - destruct (Z.eqb_spec (1 + calls kind cs) 0); [lia|reflexivity].
  - rewrite Z.add_0_l. exact IH.
Qed.

Lemma calls_flag (kind : call -> bool) (cs : list call) :
  (if existsb kind cs then 1 else 0) = Z.min 1 (calls kind cs).
Proof.
  pose proof (calls_nonneg kind cs).
  destruct (existsb kind cs) eqn:E.
  - apply calls_existsb in E. lia.
  - rewrite <- truthy_calls in E. unfold truthy in E.
    destruct (Z.eqb_spec (calls kind cs) 0); [lia|discriminate].
Qed.

Lemma calls_total (cs : list call) :
  calls is_changed cs + calls is_unchanged cs + calls is_failed cs
  + calls is_ignored cs = Z.of_nat (List.length cs).
Proof.
  induction cs as [|c cs IH]; [reflexivity|].
  rewrite !calls_cons. cbn [List.length]. rewrite Nat2Z.inj_succ.
  destruct c as [src [ | | ] | src message | path message];
    cbn [is_failed is_changed is_unchanged is_ignored]; lia.
Qed.

Lemma calls_Permutation (kind : call -> bool) (cs1 cs2 : list call) :
  Permutation cs1 cs2 -> calls kind cs1 = calls kind cs2.
Proof.
  induction 1 as [|c cs1 cs2 _ IH|c d cs|cs1 cs2 cs3 _ IH1 _ IH2].
  - reflexivity.
  - rewrite !calls_cons, IH. reflexivity.
  - rewrite !calls_cons. lia.
  - congruence.
Qed.

Lemma existsb_Permutation (kind : call -> bool) (cs1 cs2 : list call) :
  Permutation cs1 cs2 -> existsb kind cs1 = existsb kind cs2.
Proof.
  intros Hperm. rewrite <- !truthy_calls, (calls_Permutation _ _ _ Hperm).
  reflexivity.
Qed.

(** ** The exit code and the counters, from the calls made *)

(** X1.  Fed the same calls, a new [Report] and a new [JunitReport] with
    the same flags return the same exit code: 123 when some call was
    [failed], otherwise 1 when some file changed and [check] is set,
    otherwise 0.  That [JunitReport] keeps flags where [Report] counts
    makes no difference to the exit code. *)
Theorem return_code_of_history (ck df qt vb : bool) (cs : list call) :
  let code :=
    if existsb is_failed cs then 123
    else if existsb is_changed cs && ck then 1
    else 0 in
  exists r' log j',
    run (Report.new ck df qt vb) cs = Some (r', log) /\
    run (JunitReport.new ck df qt vb) cs = Some (j', []) /\
    Report.return_code r' = code /\
    JunitReport.return_code j' = code.
Proof.
  intros code. subst code.
  destruct (Report_run_counts cs (Report.new ck df qt vb))
    as (r' & log & E & Hck & _ & _ & _ & Hcc & _ & Hfc).
  destruct (Junit_run_counts cs (JunitReport.new ck df qt vb))
    as (j' & Ej & Hjck & _ & _ & _ & Hjcc & _ & Hjfc & _).
  exists r', log, j'. split; [exact E|]. split; [exact Ej|].
  cbn in Hck, Hcc, Hfc, Hjck, Hjcc, Hjfc.
  unfold Report.return_code, JunitReport.return_code.
  rewrite Hck, Hcc, Hfc, Hjck, Hjcc, Hjfc, ?Z.add_0_l, !truthy_calls.
  split; [reflexivity|].
  destruct (existsb is_failed cs), (existsb is_changed cs); reflexivity.
Qed.

(** X2.  Fed the same calls from new, each of [change_count],
    [same_count] and [failure_count] of the [JunitReport] is the counter
    of the [Report] capped at 1. *)
Theorem Junit_counters_cap_Report (ck df qt vb : bool) (cs : list call) :
  exists r' log j',
    run (Report.new ck df qt vb) cs = Some (r', log) /\
    run (JunitReport.new ck df qt vb) cs = Some (j', []) /\
    JunitReport.change_count j' = Z.min 1 (Report.change_count r') /\
    JunitReport.same_count j' = Z.min 1 (Report.same_count r') /\
    JunitReport.failure_count j' = Z.min 1 (Report.failure_count r').
Proof.
  destruct (Report_run_counts cs (Report.new ck df qt vb))
    as (r' & log & E & _ & _ & _ & _ & Hcc & Hsc & Hfc).
  destruct (Junit_run_counts cs (JunitReport.new ck df qt vb))
    as (j' & Ej & _ & _ & _ & _ & Hjcc & Hjsc & Hjfc & _).
  exists r', log, j'. split; [exact E|]. split; [exact Ej|].
  cbn in Hcc, Hsc, Hfc, Hjcc, Hjsc, Hjfc.
  rewrite Hcc, Hsc, Hfc, Hjcc, Hjsc, Hjfc, ?Z.add_0_l, !calls_flag.
  repeat split.
Qed.

(** ** What a Report prints *)

Lemma Report_record_lines (r : Report.t) (c : call) :
  exists r' log,
    record r c = Some (r', log) /\
    Report.quiet r' = Report.quiet r /\
    Report.verbose r' = Report.verbose r /\
    Z.of_nat (List.length log) =
      (if is_failed c then 1 else 0) +
      (if is_changed c && (Report.verbose r || negb (Report.quiet r))
       then 1 else 0) +
      (if (is_unchanged c || is_ignored c) && Report.verbose r
       then 1 else 0).
Proof.
  destruct r as [ck df qt vb cc sc fc].
  destruct c as [src [ | | ] | src message | path message]; cbn;
    destruct vb, qt; cbn;
    do 2 eexists; (split; [reflexivity|]); repeat split.
Qed.

Lemma Report_run_lines (r : Report.t) (cs : list call) :
  exists r' log,
    run r cs = Some (r', log) /\
    Z.of_nat (List.length log) =
      calls is_failed cs +
      (if Report.verbose r || negb (Report.quiet r)
       then calls is_changed cs else 0) +
      (if Report.verbose r
       then calls is_unchanged cs + calls is_ignored cs else 0).
Proof.
  revert r. induction cs as [|c cs IH]; intros r.
  - exists r, []. split; [reflexivity|]. unfold calls. cbn.
    destruct (Report.verbose r), (Report.quiet r); reflexivity.
  - destruct (Report_record_lines r c) as (r1 & log1 & E1 & Hqt & Hvb & Hlen1).
    destruct (IH r1) as (r2 & log2 & E2 & Hlen2).
    exists r2, (log1 ++ log2)%list.
    split; [rewrite run_cons; exact (bind_Some _ _ _ _ _ _ E1 E2)|].
    rewrite length_app, Nat2Z.inj_add, Hlen1, Hlen2, Hqt, Hvb, !calls_cons.
    destruct c as [src [ | | ] | src message | path message];
      cbn [is_failed is_changed is_unchanged is_ignored andb orb];
      destruct (Report.verbose r), (Report.quiet r); cbn [andb orb negb]; lia.
Qed.

(** X4.  The number of lines a [Report] prints over a sequence of calls:
    one per call of [failed], whatever the flags; one per changed file
    when [verbose] is set or [quiet] is not; one per unchanged file and
    per ignored path only when [verbose] is set. *)
Theorem Report_console_line_count (r : Report.t) (cs : list call) :
  exists r' log,
    run r cs = Some (r', log) /\
    Z.of_nat (List.length log) =
      calls is_failed cs +
      (if Report.verbose r || negb (Report.quiet r)
       then calls is_changed cs else 0) +
      (if Report.verbose r
       then calls is_unchanged cs + calls is_ignored cs else 0).
Proof.
  destruct (Report_run_lines r cs) as (r' & log & E & Hlen).
  exists r', log. split; [exact E|exact Hlen].
Qed.

Lemma Report_record_quiet (r : Report.t) (c : call) :
  Report.quiet r = true -> Report.verbose r = false ->
  exists r',
    record r c =
      Some (r', match c with
                | Failed src message =>
                    [Err ("error: cannot format " ++ src ++ ": " ++ message)]
                | _ => []
                end) /\
    Report.quiet r' = true /\ Report.verbose r' = false.
Proof.
  destruct r as [ck df qt vb cc sc fc]. cbn. intros -> ->.
  destruct c as [src [ | | ] | src message | path message]; cbn;
    eexists; repeat split.
Qed.

(** X3.  A [Report] with [quiet] set and [verbose] not prints nothing
    through [out]: its console output is the error lines of the calls of
    [failed], one each, in call order. *)
Theorem Report_quiet_prints_errors_only (r : Report.t) (cs : list call)
    (Hquiet : Report.quiet r = true) (Hverbose : Report.verbose r = false) :
  exists r',
    run r cs =
      Some (r',
            flat_map
              (fun c =>
                 match c with
                 | Failed src message =>
                     [Err ("error: cannot format " ++ src ++ ": " ++ message)]
                 | _ => []
                 end) cs).
Proof.
  revert r Hquiet Hverbose. induction cs as [|c cs IH]; intros r Hq Hv.
  - exists r. reflexivity.
  - destruct (Report_record_quiet r c Hq Hv) as (r1 & E1 & Hq1 & Hv1).
    destruct (IH r1 Hq1 Hv1) as (r2 & E2).
    exists r2. rewrite run_cons. cbn [flat_map].
    exact (bind_Some _ _ _ _ _ _ E1 E2).
Qed.

(** A quiet report given a changed file, a failure, an ignored path and
    an unchanged file prints the one error line. *)
Lemma Report_quiet_prints_errors_only_witness :
  exists r',
    run (Report.new false false true false)
        [Done "a.py" YES; Failed "b.py" "boom"; Ignored "c" "no match";
         Done "d.py" NO] =
    Some (r', [Err "error: cannot format b.py: boom"]).
Proof.
  exact (Report_quiet_prints_errors_only
           (Report.new false false true false)
           [Done "a.py" YES; Failed "b.py" "boom"; Ignored "c" "no match";
            Done "d.py" NO]
           eq_refl eq_refl).
Defined.

Lemma Report_record_same_log (r1 r2 : Report.t) (c : call) :
  Report.check r1 = Report.check r2 -> Report.diff r1 = Report.diff r2 ->
  Report.quiet r1 = Report.quiet r2 -> Report.verbose r1 = Report.verbose r2 ->
  exists r1' r2' log,
    record r1 c = Some (r1', log) /\ record r2 c = Some (r2', log) /\
    Report.check r1' = Report.check r2' /\ Report.diff r1' = Report.diff r2' /\
    Report.quiet r1' = Report.quiet r2' /\
    Report.verbose r1' = Report.verbose r2'.
Proof.
  destruct r1 as [ck df qt vb cc sc fc], r2 as [ck' df' qt' vb' cc' sc' fc'].
  cbn. intros <- <- <- <-.
  destruct c as [src [ | | ] | src message | path message]; cbn;
    destruct vb, qt; cbn; do 3 eexists; repeat split.
Qed.

(** X5.  What a [Report] prints depends on its flags and on the calls,
    not on its counters: two reports with the same four flags print the
    same lines for the same calls. *)
Theorem Report_console_ignores_counters (r1 r2 : Report.t) (cs : list call)
    (Hck : Report.check r1 = Report.check r2)
    (Hdf : Report.diff r1 = Report.diff r2)
    (Hqt : Report.quiet r1 = Report.quiet r2)
    (Hvb : Report.verbose r1 = Report.verbose r2) :
  exists r1' r2' log,
    run r1 cs = Some (r1', log) /\ run r2 cs = Some (r2', log).
Proof.
  revert r1 r2 Hck Hdf Hqt Hvb.
  induction cs as [|c cs IH]; intros r1 r2 Hck Hdf Hqt Hvb.
  - exists r1, r2, []. split; reflexivity.
  - destruct (Report_record_same_log r1 r2 c Hck Hdf Hqt Hvb)
      as (a1 & a2 & log & E1 & E2 & Hck' & Hdf' & Hqt' & Hvb').
    destruct (IH a1 a2 Hck' Hdf' Hqt' Hvb') as (b1 & b2 & log' & F1 & F2).
    exists b1, b2, (log ++ log')%list. rewrite !run_cons.
    split; [exact (bind_Some _ _ _ _ _ _ E1 F1)|
            exact (bind_Some _ _ _ _ _ _ E2 F2)].
Qed.

(** A new verbose report and one that has counted seven files print the
    same two lines. *)
Lemma Report_console_ignores_counters_witness :
  exists r1' r2' log,
    run (Report.new true false false true)
        [Done "a.py" YES; Ignored "b" "no match"] = Some (r1', log) /\
    run (Report.mk true false false true 4 2 1)
        [Done "a.py" YES; Ignored "b" "no match"] = Some (r2', log) /\
    log = [Out "would reformat a.py" None;
           Out "b ignored: no match" (Some false)].
Proof.
  destruct (Report_console_ignores_counters
              (Report.new true false false true)
              (Report.mk true false false true 4 2 1)
              [Done "a.py" YES; Ignored "b" "no match"]
              eq_refl eq_refl eq_refl eq_refl)
    as (r1' & r2' & log & E1 & E2).
  exists r1', r2', log. split; [exact E1|]. split; [exact E2|].
  cbn in E1. injection E1 as _ Hlog. symmetry. exact Hlog.
Defined.

(** ** Fragments of a JunitReport *)

Lemma Junit_record_tests (j : JunitReport.t) (c : call) :
  exists j' added,
    record j c = Some (j', []) /\
    JunitReport.quiet j' = JunitReport.quiet j /\
    JunitReport.verbose j' = JunitReport.verbose j /\
    JunitReport.error_count j' = JunitReport.error_count j /\
    JunitReport.tests j' = (JunitReport.tests j ++ added)%list /\
    Z.of_nat (List.length added) =
      (if is_unchanged c || is_failed c then 1 else 0) +
      (if is_changed c && (JunitReport.verbose j || negb (JunitReport.quiet j))
       then 1 else 0) +
      (if is_ignored c && JunitReport.verbose j then 1 else 0).
Proof.
  destruct j as [ck df qt vb cc sc sk fc ec ts].
  destruct c as [src [ | | ] | src message | path message]; cbn;
    destruct vb, qt; cbn;
    try (eexists; eexists [_]; split; [reflexivity|]; repeat split; fail);
    (eexists; exists []; split; [reflexivity|]; repeat split;
     rewrite app_nil_r; reflexivity).
Qed.

Lemma Junit_run_tests (j : JunitReport.t) (cs : list call) :
  exists j' added,
    run j cs = Some (j', []) /\
    JunitReport.tests j' = (JunitReport.tests j ++ added)%list /\
    JunitReport.error_count j' = JunitReport.error_count j /\
    Z.of_nat (List.length added) =
      calls is_unchanged cs + calls is_failed cs +
      (if JunitReport.verbose j || negb (JunitReport.quiet j)
       then calls is_changed cs else 0) +
      (if JunitReport.verbose j then calls is_ignored cs else 0).
Proof.
  revert j. induction cs as [|c cs IH]; intros j.
  - exists j, []. split; [reflexivity|]. rewrite app_nil_r.
    split; [reflexivity|]. split; [reflexivity|]. unfold calls. cbn.
    destruct (JunitReport.verbose j), (JunitReport.quiet j); reflexivity.
  - destruct (Junit_record_tests j c)
      as (j1 & add1 & E1 & Hqt & Hvb & Hec & Hts & Hlen1).
    destruct (IH j1) as (j2 & add2 & E2 & Hts2 & Hec2 & Hlen2).
    exists j2, (add1 ++ add2)%list.
    split; [rewrite run_cons; exact (bind_Some _ _ _ _ _ _ E1 E2)|].
    split; [rewrite Hts2, Hts, app_assoc; reflexivity|].
    split; [congruence|].
    rewrite length_app, Nat2Z.inj_add, Hlen1, Hlen2, Hqt, Hvb, !calls_cons.
    destruct c as [src [ | | ] | src message | path message];
      cbn [is_failed is_changed is_unchanged is_ignored andb orb];
      destruct (JunitReport.verbose j), (JunitReport.quiet j);
      cbn [andb orb negb]; lia.
Qed.

(** X6.  A [JunitReport] never prints; over a sequence of calls it keeps
    the fragments it had, in place, and appends one per unchanged file
    and per failure, one per changed file when [verbose] is set or
    [quiet] is not, and one per ignored path when [verbose] is set.  No
    call touches [error_count]. *)
Theorem Junit_fragment_count (j : JunitReport.t) (cs : list call) :
  exists j' added,
    run j cs = Some (j', []) /\
    JunitReport.tests j' = (JunitReport.tests j ++ added)%list /\
    JunitReport.error_count j' = JunitReport.error_count j /\
    Z.of_nat (List.length added) =
      calls is_unchanged cs + calls is_failed cs +
      (if JunitReport.verbose j || negb (JunitReport.quiet j)
       then calls is_changed cs else 0) +
      (if JunitReport.verbose j then calls is_ignored cs else 0).
Proof.
  destruct (Junit_run_tests j cs) as (j' & added & E & Hts & Hec & Hlen).
  exists j', added. split; [exact E|]. split; [exact Hts|].
  split; [exact Hec|exact Hlen].
Qed.

(** X7.  On a new [JunitReport] with [verbose] set or [quiet] not, the
    number the document gives as [tests] never exceeds the number of
    fragments in its body; with [verbose] set the body holds one fragment
    per call. *)
Theorem Junit_tests_attribute_within_fragments (ck df qt vb : bool)
    (cs : list call) (Hshown : vb || negb qt = true) :
  exists j',
    run (JunitReport.new ck df qt vb) cs = Some (j', []) /\
    JunitReport.change_count j' + JunitReport.same_count j'
    + JunitReport.failure_count j' + JunitReport.skipped_count j'
    <= Z.of_nat (List.length (JunitReport.tests j')) /\
    (vb = true -> List.length (JunitReport.tests j') = List.length cs).
Proof.
  destruct (Junit_run_counts cs (JunitReport.new ck df qt vb))
    as (j' & E & _ & _ & _ & _ & Hcc & Hsc & Hfc & Hsk).
  destruct (Junit_run_tests (JunitReport.new ck df qt vb) cs)
    as (j2 & added & E2 & Hts & _ & Hlen).
  assert (j2 = j') as -> by congruence.
  exists j'. split; [exact E|].
  cbn in Hcc, Hsc, Hfc, Hsk, Hts, Hlen. rewrite Hshown in Hlen.
  rewrite Hts, Hcc, Hsc, Hfc, Hsk, !calls_flag.
  pose proof (calls_nonneg is_changed cs).
  pose proof (calls_nonneg is_unchanged cs).
  pose proof (calls_nonneg is_failed cs).
  pose proof (calls_nonneg is_ignored cs).
  pose proof (calls_total cs).
  split.
  - destruct vb; lia.
  - intros ->. lia.
Qed.

(** Three changed files on a report with the default flags: three
    fragments, and the counters add up to one. *)
Lemma Junit_tests_attribute_within_fragments_witness :
  exists j',
    run (JunitReport.new false false false false)
        [Done "a.py" YES; Done "b.py" YES; Done "c.py" YES] = Some (j', []) /\
    JunitReport.change_count j' + JunitReport.same_count j'
    + JunitReport.failure_count j' + JunitReport.skipped_count j' = 1 /\
    List.length (JunitReport.tests j') = 3%nat.
Proof.
  destruct (Junit_tests_attribute_within_fragments false false false false
              [Done "a.py" YES; Done "b.py" YES; Done "c.py" YES] eq_refl)
    as (j' & E & _ & _).
  exists j'. split; [exact E|].
  cbn in E. injection E as <-. split; reflexivity.
Defined.

(** ** Renderings, from the calls made *)

(** X8.  The summary of a [JunitReport] that started new never shows a
    plural: whatever the number of calls, it has the clause [1 file]
    with its verb phrase for each kind of outcome that occurred, and no
    clause for a kind that did not. *)
Theorem Junit_summary_is_singular (ck df qt vb : bool) (cs : list call) :
  let would := ck || df in
  let clause (present : bool) (verb : string) :=
    if present then ["1 file " ++ verb] else [] in
  exists j',
    run (JunitReport.new ck df qt vb) cs = Some (j', []) /\
    unstyle (JunitReport.summary j') =
    String.concat ", "
      (clause (existsb is_changed cs)
              (if would then "would be reformatted" else "reformatted") ++
       clause (existsb is_unchanged cs)
              (if would then "would be left unchanged" else "left unchanged") ++
       clause (existsb is_failed cs)
              (if would then "would fail to reformat"
               else "failed to reformat"))%list
    ++ ".".
Proof.
  intros would clause. subst would clause.
  destruct (Junit_run_counts cs (JunitReport.new ck df qt vb))
    as (j' & E & Hck & Hdf & _ & _ & Hcc & Hsc & Hfc & _).
  exists j'. split; [exact E|].
  destruct j' as [ck' df' qt' vb' cc' sc' sk' fc' ec' ts'].
  cbn in Hck, Hdf, Hcc, Hsc, Hfc. subst ck' df' cc' sc' fc'.
  unfold JunitReport.summary.
  cbn [JunitReport.change_count JunitReport.same_count
       JunitReport.failure_count JunitReport.check JunitReport.diff].
  destruct (ck || df), (existsb is_changed cs), (existsb is_unchanged cs),
    (existsb is_failed cs); reflexivity.
Qed.

Lemma Report_str_text (ck df qt vb : bool) (cc sc fc : Z) :
  0 <= cc -> 0 <= sc -> 0 <= fc ->
  let would := ck || df in
  let count n := if n =? 1 then "1 file" else str_of_int n ++ " files" in
  let clause n verb := if n =? 0 then [] else [count n ++ " " ++ verb] in
  unstyle (Report.__str__ (Report.mk ck df qt vb cc sc fc)) =
  String.concat ", "
    (clause cc (if would then "would be reformatted" else "reformatted") ++
     clause sc (if would then "would be left unchanged"
                else "left unchanged") ++
     clause fc (if would then "would fail to reformat"
                else "failed to reformat"))%list
  ++ ".".
Proof.
  intros Hcc Hsc Hfc would count clause. subst would count clause.
  unfold Report.__str__, truthy.
  cbn [Report.change_count Report.same_count Report.failure_count
       Report.check Report.diff].
  destruct (ck || df);
    counter_cases cc; counter_cases sc; counter_cases fc;
    repeat (progress (cbn; rewrite ?append_assoc)); reflexivity.
Qed.

(** X11.  The sentence of a [Report] that started new tells how many
    calls of each kind it took: the changed files, the unchanged files
    and the failures, each clause left out when there was none. *)
Theorem Report_sentence_of_history (ck df qt vb : bool) (cs : list call) :
  let would := ck || df in
  let count n := if n =? 1 then "1 file" else str_of_int n ++ " files" in
  let clause n verb := if n =? 0 then [] else [count n ++ " " ++ verb] in
  exists r' log,
    run (Report.new ck df qt vb) cs = Some (r', log) /\
    unstyle (Report.__str__ r') =
    String.concat ", "
      (clause (calls is_changed cs)
              (if would then "would be reformatted" else "reformatted") ++
       clause (calls is_unchanged cs)
              (if would then "would be left unchanged" else "left unchanged") ++
       clause (calls is_failed cs)
              (if would then "would fail to reformat"
               else "failed to reformat"))%list
    ++ ".".
Proof.
  intros would count clause. subst would count clause.
  destruct (Report_run_counts cs (Report.new ck df qt vb))
    as (r' & log & E & Hck & Hdf & _ & _ & Hcc & Hsc & Hfc).
  exists r', log. split; [exact E|].
  destruct r' as [ck' df' qt' vb' cc' sc' fc'].
  cbn in Hck, Hdf, Hcc, Hsc, Hfc. subst ck' df' cc' sc' fc'.
  apply (Report_str_text ck df qt' vb'); apply calls_nonneg.
Qed.

(** X12.  The document of a [JunitReport] that started new gives
    [failures] as 1 when some file changed and 0 otherwise, [errors] as 1
    when some call was [failed] and 0 otherwise, never a number of
    files; [skipped] is the number of ignored paths of a verbose report,
    and [tests] is the sum of these and of the flag for unchanged
    files. *)
Theorem Junit_document_of_history (ck df qt vb : bool) (cs : list call) :
  let flag (b : bool) := if b then 1 else 0 in
  let skipped := if vb then calls is_ignored cs else 0 in
  exists j',
    run (JunitReport.new ck df qt vb) cs = Some (j', []) /\
    JunitReport.__str__ j' =
    Some ("<?xml version=" ++ dq ++ "1.0" ++ dq ++
          " encoding=" ++ dq ++ "utf-8" ++ dq ++ "?>" ++ nl ++
          "<testsuite failures=" ++ dq ++
          (if existsb is_changed cs then "1" else "0") ++ dq ++
          " errors=" ++ dq ++
          (if existsb is_failed cs then "1" else "0") ++ dq ++
          " name=" ++ dq ++ "black" ++ dq ++ nl ++
          "skipped=" ++ dq ++ str_of_int skipped ++ dq ++
          " tests=" ++ dq ++
          str_of_int (flag (existsb is_changed cs)
                      + flag (existsb is_unchanged cs)
                      + flag (existsb is_failed cs) + skipped) ++ dq ++
          ">" ++ nl ++
          String.concat "" (JunitReport.tests j') ++ "</testsuite>").
Proof.
  intros flag skipped. subst flag skipped.
  destruct (Junit_run_counts cs (JunitReport.new ck df qt vb))
    as (j' & E & _ & _ & _ & Hvb & Hcc & Hsc & Hfc & Hsk).
  exists j'. split; [exact E|].
  cbn in Hcc, Hsc, Hfc, Hsk.
  unfold JunitReport.__str__. rewrite format_BODY, Hcc, Hsc, Hfc, Hsk.
  destruct (existsb is_changed cs), (existsb is_failed cs); reflexivity.
Qed.

(** ** The order of the calls *)

(** X10.  The order in which the files are reported does not matter to
    the result: two sequences holding the same calls leave a [Report] in
    the same state, with as many lines printed, and leave a
    [JunitReport] with the same counters, exit code and summary and as
    many fragments. *)
Theorem reports_ignore_call_order (r : Report.t) (j : JunitReport.t)
    (cs1 cs2 : list call) (Hperm : Permutation cs1 cs2) :
  (exists r' log1 log2,
     run r cs1 = Some (r', log1) /\ run r cs2 = Some (r', log2) /\
     List.length log1 = List.length log2) /\
  (exists j1 j2,
     run j cs1 = Some (j1, []) /\ run j cs2 = Some (j2, []) /\
     JunitReport.return_code j1 = JunitReport.return_code j2 /\
     JunitReport.summary j1 = JunitReport.summary j2 /\
     JunitReport.change_count j1 = JunitReport.change_count j2 /\
     JunitReport.same_count j1 = JunitReport.same_count j2 /\
     JunitReport.failure_count j1 = JunitReport.failure_count j2 /\
     JunitReport.skipped_count j1 = JunitReport.skipped_count j2 /\
     List.length (JunitReport.tests j1) = List.length (JunitReport.tests j2)).
Proof.
  split.
  - destruct (Report_run_counts cs1 r)
      as (r1 & log1 & E1 & Hck1 & Hdf1 & Hqt1 & Hvb1 & Hcc1 & Hsc1 & Hfc1).
    destruct (Report_run_counts cs2 r)
      as (r2 & log2 & E2 & Hck2 & Hdf2 & Hqt2 & Hvb2 & Hcc2 & Hsc2 & Hfc2).
    rewrite (calls_Permutation _ _ _ Hperm) in Hcc1.
    rewrite (calls_Permutation _ _ _ Hperm) in Hsc1.
    rewrite (calls_Permutation _ _ _ Hperm) in Hfc1.
    assert (r2 = r1) as ->.
    { destruct r1, r2. cbn in *. congruence. }
    exists r1, log1, log2. split; [exact E1|]. split; [exact E2|].
    destruct (Report_run_lines r cs1) as (a1 & l1 & F1 & Hl1).
    destruct (Report_run_lines r cs2) as (a2 & l2 & F2 & Hl2).
    assert (l1 = log1) as -> by congruence.
    assert (l2 = log2) as -> by congruence.
    rewrite (calls_Permutation is_failed _ _ Hperm),
      (calls_Permutation is_changed _ _ Hperm),
      (calls_Permutation is_unchanged _ _ Hperm),
      (calls_Permutation is_ignored _ _ Hperm) in Hl1. lia.
  - destruct (Junit_run_counts cs1 j)
      as (j1 & E1 & Hck1 & Hdf1 & _ & _ & Hcc1 & Hsc1 & Hfc1 & Hsk1).
    destruct (Junit_run_counts cs2 j)
      as (j2 & E2 & Hck2 & Hdf2 & _ & _ & Hcc2 & Hsc2 & Hfc2 & Hsk2).
    rewrite (existsb_Permutation _ _ _ Hperm) in Hcc1.
    rewrite (existsb_Permutation _ _ _ Hperm) in Hsc1.
    rewrite (existsb_Permutation _ _ _ Hperm) in Hfc1.
    rewrite (calls_Permutation _ _ _ Hperm) in Hsk1.
    destruct (Junit_run_tests j cs1) as (a1 & add1 & F1 & Ht1 & _ & Hl1).
    destruct (Junit_run_tests j cs2) as (a2 & add2 & F2 & Ht2 & _ & Hl2).
    assert (a1 = j1) as -> by congruence.
    assert (a2 = j2) as -> by congruence.
    rewrite (calls_Permutation is_failed _ _ Hperm),
      (calls_Permutation is_changed _ _ Hperm),
      (calls_Permutation is_unchanged _ _ Hperm),
      (calls_Permutation is_ignored _ _ Hperm) in Hl1.
    exists j1, j2. split; [exact E1|]. split; [exact E2|].
    assert (Hcc : JunitReport.change_count j1 = JunitReport.change_count j2)
      by congruence.
    assert (Hsc : JunitReport.same_count j1 = JunitReport.same_count j2)
      by congruence.
    assert (Hfc : JunitReport.failure_count j1 = JunitReport.failure_count j2)
      by congruence.
    assert (Hck : JunitReport.check j1 = JunitReport.check j2) by congruence.
    assert (Hdf : JunitReport.diff j1 = JunitReport.diff j2) by congruence.
    split; [unfold JunitReport.return_code; rewrite Hfc, Hcc, Hck; reflexivity|].
    split; [unfold JunitReport.summary; rewrite Hfc, Hcc, Hsc, Hck, Hdf;
            reflexivity|].
    split; [exact Hcc|]. split; [exact Hsc|]. split; [exact Hfc|].
    split; [congruence|].
    rewrite Ht1, Ht2, !length_app. lia.
Qed.

(** A failure reported before or after a changed file. *)
Lemma reports_ignore_call_order_witness :
  exists r' log1 log2,
    run (Report.new true false false false)
        [Done "a.py" YES; Failed "b.py" "boom"] = Some (r', log1) /\
    run (Report.new true false false false)
        [Failed "b.py" "boom"; Done "a.py" YES] = Some (r', log2) /\
    List.length log1 = List.length log2.
Proof.
  exact (proj1 (reports_ignore_call_order
                  (Report.new true false false false)
                  (JunitReport.new true false false false)
                  [Done "a.py" YES; Failed "b.py" "boom"]
                  [Failed "b.py" "boom"; Done "a.py" YES]
                  (perm_swap _ _ _))).
Defined.

(** ** Reading the path back *)

Lemma prefix_empty (s : string) : prefix "" s = true.
Proof.
  destruct s; reflexivity.
Qed.

Lemma index_quote_app (s r : string) :
  String.index 0 dq (s ++ dq ++ r) = Some (String.length (upto_quote s)).
Proof.
  induction s as [|c s IH].
  - cbn. rewrite prefix_empty. reflexivity.
  - cbn [append upto_quote String.index]. unfold dq at 1. cbn [prefix].
    destruct (ascii_dec (ascii_of_nat 34) c) as [<-|Hne].
    + rewrite prefix_empty. reflexivity.
    + rewrite IH.
      destruct (Ascii.eqb_spec c quote) as [->|_]; [contradiction Hne; reflexivity|].
      reflexivity.
Qed.

Lemma substring_upto_quote (s r : string) :
  String.substring 0 (String.length (upto_quote s)) (s ++ r) = upto_quote s.
Proof.
  induction s as [|c s IH].
  - destruct r; reflexivity.
  - cbn [append upto_quote].
    destruct (Ascii.eqb c quote); [reflexivity|].
    cbn [String.length String.substring]. rewrite IH. reflexivity.
Qed.

Lemma substring_all (s : string) :
  String.substring 0 (String.length s) s = s.
Proof.
  induction s as [|c s IH]; [reflexivity|].
  cbn [String.length String.substring]. rewrite IH. reflexivity.
Qed.

(** Every test-case template opens the same way; the [file] attribute
    read back is the file name up to its first double quote. *)
Lemma file_attribute_of_testcase (file rest : string) :
  xml_attribute "file"
    (tab ++ "<testcase classname=" ++ dq ++ "black" ++ dq ++
     " file=" ++ dq ++ file ++ dq ++ rest) = Some (upto_quote file).
Proof.
  unfold xml_attribute.
  set (xml := tab ++ _).
  assert (Hidx : String.index 0 ("file" ++ "=" ++ dq) xml = Some 29%nat).
  { subst xml. cbn. rewrite prefix_empty. reflexivity. }
  rewrite Hidx.
  assert (Hrest : String.substring (29 + String.length ("file" ++ "=" ++ dq))
                    (String.length xml - (29 + String.length ("file" ++ "=" ++ dq)))
                    xml = file ++ dq ++ rest).
  { subst xml. cbn [append tab dq String.length Nat.add].
    cbn. rewrite Nat.sub_0_r. apply substring_all. }
  rewrite Hrest, index_quote_app, substring_upto_quote. reflexivity.
Qed.

Lemma upto_quote_id (s : string) :
  upto_quote s = s <-> contains dq s = false.
Proof.
  unfold contains. induction s as [|c s IH].
  - split; reflexivity.
  - cbn [upto_quote String.index]. unfold dq at 1. cbn [prefix].
    fold dq.
    destruct (Ascii.eqb_spec c quote) as [->|Hne].
    + destruct (ascii_dec (ascii_of_nat 34) quote) as [_|Hq];
        [|contradiction Hq; reflexivity].
      rewrite prefix_empty. split; discriminate.
    + destruct (ascii_dec (ascii_of_nat 34) c) as [<-|_];
        [contradiction Hne; reflexivity|].
      destruct (String.index 0 dq s) as [i|].
      * split; [|discriminate]. intros H. injection H as H.
        apply IH in H. discriminate.
      * split; [reflexivity|]. intros _. f_equal. apply IH. reflexivity.
Qed.

(** X9.  Whenever a call appends a fragment to a [JunitReport], it
    appends exactly one, and the [file] attribute read back from it is
    the path of the call up to the first double quote of the path.  It
    is the path itself exactly when the path holds no double quote: the
    path is written as it is, nothing is escaped. *)
Theorem Junit_fragment_names_its_file (self : JunitReport.t) (c : call) :
  let appends :=
    match c with
    | Done _ YES => JunitReport.verbose self || negb (JunitReport.quiet self)
    | Done _ _ | Failed _ _ => true
    | Ignored _ _ => JunitReport.verbose self
    end in
  exists self',
    record self c = Some (self', []) /\
    if appends then
      exists fragment,
        JunitReport.tests self' = (JunitReport.tests self ++ [fragment])%list /\
        xml_attribute "file" fragment = Some (upto_quote (path_of c)) /\
        (xml_attribute "file" fragment = Some (path_of c) <->
         contains dq (path_of c) = false)
    else JunitReport.tests self' = JunitReport.tests self.
Proof.
  intros appends. subst appends.
  assert (Hiff : forall path fragment,
            xml_attribute "file" fragment = Some (upto_quote path) ->
            (xml_attribute "file" fragment = Some path <->
             contains dq path = false)).
  { intros path fragment ->. rewrite <- upto_quote_id.
    split; [intros H; injection H as H; exact H|intros ->; reflexivity]. }
  destruct c as [src [ | | ] | src message | path message];
    cbn [record rt_done rt_failed rt_path_ignored JunitReport.reportType path_of].
  - unfold JunitReport.done. rewrite format_PASS_MSG.
    eexists. split; [reflexivity|]. eexists. split; [reflexivity|].
    split; [|apply Hiff]; apply file_attribute_of_testcase.
  - unfold JunitReport.done. rewrite format_PASS_MSG.
    eexists. split; [reflexivity|]. eexists. split; [reflexivity|].
    split; [|apply Hiff]; apply file_attribute_of_testcase.
  - unfold JunitReport.done. rewrite format_FAIL_MSG.
    destruct (JunitReport.verbose self || negb (JunitReport.quiet self)).
    + eexists. split; [reflexivity|]. eexists. split; [reflexivity|].
      split; [|apply Hiff]; apply file_attribute_of_testcase.
    + eexists. split; reflexivity.
  - unfold JunitReport.failed. rewrite format_ERROR_MSG.
    eexists. split; [reflexivity|]. eexists. split; [reflexivity|].
    split; [|apply Hiff]; apply file_attribute_of_testcase.
  - unfold JunitReport.path_ignored. rewrite format_SKIP_MSG.
    destruct (JunitReport.verbose self).
    + eexists. split; [reflexivity|]. eexists. split; [reflexivity|].
      split; [|apply Hiff]; apply file_attribute_of_testcase.
    + eexists. split; reflexivity.
Qed.

(** ** A change on a quiet report *)

(** C9, as the code has it.  On a report with [quiet] set and [verbose]
    not, a call of [done] with [Changed.YES] sets [change_count] to 1
    and appends nothing; the document then counts the change in
    [failures] and in [tests] with no fragment for it.  On a new such
    report the document has [tests] 1 and an empty body after this one
    call, and [return_code] is 1 under [check].  After a sequence of
    calls on a new such report, the number given as [tests] exceeds the
    number of fragments exactly when a changed file was recorded and at
    most one unchanged file and at most one failure were: the counters
    stop at 1, the fragments do not. *)
Theorem Junit_quiet_change_has_no_fragment (self : JunitReport.t)
    (src : Path) (ck df : bool) (cs : list call)
    (Hquiet : JunitReport.quiet self = true)
    (Hverbose : JunitReport.verbose self = false) :
  (exists self',
     JunitReport.done self src YES = Some (self', []) /\
     JunitReport.change_count self' = 1 /\
     JunitReport.tests self' = JunitReport.tests self /\
     JunitReport.__str__ self' =
       Some ("<?xml version=" ++ dq ++ "1.0" ++ dq ++
             " encoding=" ++ dq ++ "utf-8" ++ dq ++ "?>" ++ nl ++
             "<testsuite failures=" ++ dq ++ "1" ++ dq ++
             " errors=" ++ dq ++
             str_of_int (JunitReport.failure_count self) ++ dq ++
             " name=" ++ dq ++ "black" ++ dq ++ nl ++
             "skipped=" ++ dq ++
             str_of_int (JunitReport.skipped_count self) ++ dq ++
             " tests=" ++ dq ++
             str_of_int (1 + JunitReport.same_count self
                         + JunitReport.failure_count self
                         + JunitReport.skipped_count self) ++ dq ++ ">" ++ nl ++
             String.concat "" (JunitReport.tests self) ++ "</testsuite>")) /\
  (exists self',
     JunitReport.done (JunitReport.new ck df true false) src YES =
       Some (self', []) /\
     JunitReport.tests self' = [] /\
     JunitReport.__str__ self' =
       Some ("<?xml version=" ++ dq ++ "1.0" ++ dq ++
             " encoding=" ++ dq ++ "utf-8" ++ dq ++ "?>" ++ nl ++
             "<testsuite failures=" ++ dq ++ "1" ++ dq ++
             " errors=" ++ dq ++ "0" ++ dq ++
             " name=" ++ dq ++ "black" ++ dq ++ nl ++
             "skipped=" ++ dq ++ "0" ++ dq ++
             " tests=" ++ dq ++ "1" ++ dq ++ ">" ++ nl ++
             "</testsuite>") /\
     Z.of_nat (List.length (JunitReport.tests self')) <
       JunitReport.change_count self' + JunitReport.same_count self'
       + JunitReport.failure_count self' + JunitReport.skipped_count self' /\
     JunitReport.return_code self' = (if ck then 1 else 0)) /\
  (exists j',
     run (JunitReport.new ck df true false) cs = Some (j', []) /\
     Z.of_nat (List.length (JunitReport.tests j')) =
       calls is_unchanged cs + calls is_failed cs /\
     JunitReport.change_count j' + JunitReport.same_count j'
     + JunitReport.failure_count j' + JunitReport.skipped_count j' =
       Z.min 1 (calls is_changed cs) + Z.min 1 (calls is_unchanged cs)
       + Z.min 1 (calls is_failed cs) /\
     (Z.of_nat (List.length (JunitReport.tests j')) <
        JunitReport.change_count j' + JunitReport.same_count j'
        + JunitReport.failure_count j' + JunitReport.skipped_count j' <->
      existsb is_changed cs = true /\
      calls is_unchanged cs <= 1 /\ calls is_failed cs <= 1)).
Proof.
  split; [|split].
  - exists (JunitReport.set_change_count self 1).
    unfold JunitReport.done. rewrite Hquiet, Hverbose. cbn [orb negb].
    split; [reflexivity|].
    split; [reflexivity|]. split; [reflexivity|].
    unfold JunitReport.__str__. rewrite format_BODY. reflexivity.
  - exists (JunitReport.set_change_count (JunitReport.new ck df true false) 1).
    repeat split; destruct ck; reflexivity.
  - destruct (Junit_run_counts cs (JunitReport.new ck df true false))
      as (j' & E & _ & _ & _ & _ & Hcc & Hsc & Hfc & Hsk).
    destruct (Junit_run_tests (JunitReport.new ck df true false) cs)
      as (j2 & added & E2 & Hts & _ & Hlen).
    assert (j2 = j') as -> by congruence.
    exists j'. split; [exact E|].
    cbn in Hcc, Hsc, Hfc, Hsk, Hts, Hlen.
    rewrite Hts, Hcc, Hsc, Hfc, Hsk, Hlen.
    pose proof (calls_flag is_changed cs) as Hflag.
    rewrite !calls_flag.
    pose proof (calls_nonneg is_changed cs).
    pose proof (calls_nonneg is_unchanged cs).
    pose proof (calls_nonneg is_failed cs).
    split; [lia|]. split; [lia|].
    destruct (existsb is_changed cs).
    + split; [intros Hlt; split; [reflexivity|lia]|intros (_ & Hu & Hf); lia].
    + split; [intros Hlt; lia|intros (Habs & _); discriminate].
Qed.

(** C9 at work: a quiet report under [--check], given [a.py] as changed,
    holds no fragment, counts one test and exits with 1. *)
Lemma Junit_quiet_change_has_no_fragment_witness :
  exists self',
    JunitReport.done (JunitReport.new true false true false) "a.py" YES =
      Some (self', []) /\
    JunitReport.change_count self' = 1 /\
    JunitReport.tests self' = [] /\
    JunitReport.return_code self' = 1.
Proof.
  destruct (Junit_quiet_change_has_no_fragment
              (JunitReport.new true false true false) "a.py" true false
              [Done "a.py" YES] eq_refl eq_refl)
    as ((self' & E & Hcc & Hts & _) & (self2 & E2 & _ & _ & _ & Hrc) & _).
  exists self'. assert (self2 = self') as <- by congruence.
  split; [exact E|]. split; [exact Hcc|]. split; [exact Hts|exact Hrc].
Defined.

(** C9 fails as stated: a quiet report that is not verbose and has taken
    two unchanged files holds two fragments; given [c.py] as changed it
    appends nothing and its document has [tests] 2, which does not
    exceed the number of fragments. *)
Lemma Junit_quiet_change_tests_not_above_fragments :
  exists self self' xml,
    run (JunitReport.new true false true false)
        [Done "a.py" NO; Done "b.py" NO] = Some (self, []) /\
    JunitReport.quiet self = true /\
    JunitReport.verbose self = false /\
    JunitReport.done self "c.py" YES = Some (self', []) /\
    JunitReport.change_count self' = 1 /\
    JunitReport.tests self' = JunitReport.tests self /\
    List.length (JunitReport.tests self') = 2%nat /\
    JunitReport.__str__ self' = Some xml /\
    xml_attribute "failures" xml = Some "1" /\
    xml_attribute "tests" xml = Some "2" /\
    JunitReport.change_count self' + JunitReport.same_count self'
    + JunitReport.failure_count self' + JunitReport.skipped_count self' =
      Z.of_nat (List.length (JunitReport.tests self')).
Proof.
  do 3 eexists. split; [reflexivity|].
  split; [reflexivity|]. split; [reflexivity|]. split; [reflexivity|].
  split; [reflexivity|]. split; [reflexivity|]. split; [reflexivity|].
  split; [reflexivity|]. split; [reflexivity|]. split; reflexivity.
Qed.
